(** * weatherforecast: the forecast pipeline of [app.py]

    A shallow embedding of [load_prefecture_coords], [get_weather_data] and
    [index] of [app.py].

    Numbers.  The program computes on IEEE floats (numpy [float32] arrays and
    Python [float]s).  Here every finite float is an exact rational [Q]; the
    rounding error of a float operation and the values NaN and infinity are
    outside the model, except in the coordinate loader, where a missing cell is
    the NaN that [dropna] looks for.  In particular [round1] yields the exact
    decimal [k/10] where numpy multiplies, rounds and divides in [float32];
    what is proved below of rounded values is their order and the side of a
    threshold they fall on, which the float steps, each monotone, keep.

    Exceptions.  A Python exception is the [Raise] branch of [result]. *)

From Stdlib Require Import ZArith QArith Qround Qabs Bool List String Ascii.
From Stdlib Require Import Lia Lqa.
From Stdlib Require Import Permutation Sorted.
Import ListNotations.

Set Implicit Arguments.
Local Open Scope Q_scope.

(** ** Python plumbing: exceptions, float helpers *)

Module Py.

Inductive PyError : Type :=
| KeyError (key : string)
| ValueError
| TypeError
| AttributeError
| ZeroDivisionError.

Inductive result (A : Type) : Type :=
| Ok (a : A)
| Raise (e : PyError).

Arguments Ok {A} a.
Arguments Raise {A} e.

Definition bind {A B : Type} (m : result A) (k : A -> result B) : result B :=
  match m with
  | Ok a => k a
  | Raise e => Raise e
  end.

Fixpoint mapM {A B : Type} (f : A -> result B) (l : list A) : result (list B) :=
  match l with
  | [] => Ok []
  | x :: l' =>
      bind (f x) (fun y => bind (mapM f l') (fun ys => Ok (y :: ys)))
  end.

(** Comparisons of floats, as booleans. *)
Definition Qlt_bool (a b : Q) : bool := negb (Qle_bool b a).
Definition Qge_bool (a b : Q) : bool := Qle_bool b a.
Definition Qgt_bool (a b : Q) : bool := Qlt_bool b a.

(** [numpy.rint]: the nearest integer, a tie going to the even neighbour. *)
Definition rint (x : Q) : Z :=
  let f := Qfloor x in
  match Qcompare (x - inject_Z f) (1 # 2) with
  | Lt => f
  | Gt => (f + 1)%Z
  | Eq => if Z.even f then f else (f + 1)%Z
  end.

(** [ndarray.round(1)] on one element: scale by ten, [rint], scale back; in
    exact arithmetic, without the [float32] rounding of each step. *)
Definition round1 (x : Q) : Q := inject_Z (rint (x * 10)) / 10.

(** [.astype(int)] on an integer-valued float: the cast to int64.  A value
    outside the int64 range has no defined cast; numpy on x86-64 stores
    [-2^63] for it. *)
Definition INT64_MIN : Z := (- 2 ^ 63)%Z.

Definition astype_int (z : Z) : Z :=
  if ((INT64_MIN <=? z) && (z <? 2 ^ 63))%Z then z else INT64_MIN.

(** [a / b] on Python floats. *)
Definition truediv (a b : Q) : result Q :=
  if Qeq_bool b 0 then Raise ZeroDivisionError else Ok (a / b).

End Py.

Import Py.

Notation "x <- m ;; k" := (bind m (fun x => k))
  (at level 61, m at next level, right associativity).

(** ** Element-wise column operations of pandas *)

Module Series.

Fixpoint zip_with {A B C : Type} (f : A -> B -> C) (l : list A) (r : list B)
  : list C :=
  match l, r with
  | a :: l', b :: r' => f a b :: zip_with f l' r'
  | _, _ => []
  end.

(** [col < c], [col <= c], [col >= c], [col > c], [col == c] *)
Definition lt (col : list Q) (c : Q) : list bool := map (fun x => Qlt_bool x c) col.
Definition le (col : list Q) (c : Q) : list bool := map (fun x => Qle_bool x c) col.
Definition ge (col : list Q) (c : Q) : list bool := map (fun x => Qge_bool x c) col.
Definition gt (col : list Q) (c : Q) : list bool := map (fun x => Qgt_bool x c) col.
Definition eq (col : list Q) (c : Q) : list bool := map (fun x => Qeq_bool x c) col.

(** [m1 & m2] and [~m] on boolean masks *)
Definition and (m1 m2 : list bool) : list bool := zip_with andb m1 m2.
Definition not (m : list bool) : list bool := map negb m.

(** [df.loc[mask, col] = v]: the cells under a true mask take [v]. *)
Definition loc_set {A : Type} (mask : list bool) (v : A) (col : list A) : list A :=
  zip_with (fun (m : bool) old => if m then v else old) mask col.

End Series.

(** ** The weather classifier of [get_weather_data] *)

Module Classifier.

Local Open Scope string_scope.

(** The five texts the program writes into the forecast column. *)
Definition text_clear : string := "🌞 晴れ".
Definition text_rain_warning : string := "☔ 雨注意".
Definition text_occasional_rain : string := "☁️ 時々雨".
Definition text_partly_cloudy : string := "🌤️ 晴れ時々曇り".
Definition text_cloudy : string := "☁️ 曇り".

Local Close Scope string_scope.

(** The lambda of [custom_df.apply(..., axis=1)]:
    [s / d if d > 0 else 0]. *)
Definition ratio_lambda (sunshine daylight : Q) : result Q :=
  if Qgt_bool daylight 0 then truediv sunshine daylight else Ok 0.

(** The column [custom_df['日照率']]: the lambda on every row, times 100. *)
Definition sunshine_ratio (sunshine daylight : list Q) : result (list Q) :=
  rs <- mapM (fun row => ratio_lambda (fst row) (snd row))
          (combine sunshine daylight) ;;
  Ok (map (fun r => r * 100) rs).

(** The column [custom_df['天気予報']] after the four [loc] assignments. *)
Definition forecast (precip ratio : list Q) : list string :=
  let col := repeat text_clear (List.length precip) in
  let is_low_sunshine := Series.lt ratio 50 in
  let is_partly_cloudy := Series.and (Series.ge ratio 50) (Series.le ratio 90) in
  let is_no_precip := Series.eq precip 0 in
  let is_rain_warning := Series.ge precip 5 in
  let col := Series.loc_set is_rain_warning text_rain_warning col in
  let is_light_precip := Series.and (Series.gt precip 0) (Series.lt precip 5) in
  let is_occasional_rain :=
    Series.and (Series.and is_low_sunshine is_light_precip)
               (Series.not is_rain_warning) in
  let col := Series.loc_set is_occasional_rain text_occasional_rain col in
  let is_partly_cloudy_final := Series.and is_no_precip is_partly_cloudy in
  let col :=
    Series.loc_set
      (Series.and (Series.and is_partly_cloudy_final (Series.not is_rain_warning))
                  (Series.not is_occasional_rain))
      text_partly_cloudy col in
  let is_cloudy := Series.and is_no_precip is_low_sunshine in
  Series.loc_set
    (Series.and
       (Series.and (Series.and is_cloudy (Series.not is_rain_warning))
                   (Series.not is_occasional_rain))
       (Series.not is_partly_cloudy_final))
    text_cloudy col.

End Classifier.

(** ** A pandas [DataFrame]: named columns, in order *)

Module Frame.

Inductive Column : Type :=
| FloatCol (xs : list Q)      (* float dtype *)
| IntCol (xs : list Z)        (* int dtype *)
| StrCol (xs : list string)   (* object dtype holding text *)
| TimeCol (xs : list Z).      (* datetime64, as epoch seconds *)

Definition col_len (c : Column) : nat :=
  match c with
  | FloatCol xs => List.length xs
  | IntCol xs => List.length xs
  | StrCol xs => List.length xs
  | TimeCol xs => List.length xs
  end.

Definition DataFrame : Type := list (string * Column).

(** [df.columns] *)
Definition columns (df : DataFrame) : list string := map fst df.

(** [d[k] = v] on a dict and [df[k] = v] on a frame: an existing key keeps
    its place, a new one goes last. *)
Fixpoint set_item (k : string) (v : Column) (df : DataFrame) : DataFrame :=
  match df with
  | [] => [(k, v)]
  | (k', c) :: df' =>
      if String.eqb k k' then (k, v) :: df' else (k', c) :: set_item k v df'
  end.

(** [pd.DataFrame(data=d)]: arrays of different lengths are a [ValueError]. *)
Definition make (data : list (string * Column)) : result DataFrame :=
  match data with
  | [] => Ok []
  | (_, c) :: rest =>
      if forallb (fun kc => Nat.eqb (col_len (snd kc)) (col_len c)) rest
      then Ok data
      else Raise ValueError
  end.

(** [df[k]] *)
Fixpoint get_item (k : string) (df : DataFrame) : result Column :=
  match df with
  | [] => Raise (KeyError k)
  | (k', c) :: df' => if String.eqb k k' then Ok c else get_item k df'
  end.

(** [df[[k1, ..., kn]]] *)
Definition select (ks : list string) (df : DataFrame) : result DataFrame :=
  mapM (fun k => c <- get_item k df ;; Ok (k, c)) ks.

Definition mem (k : string) (ks : list string) : bool :=
  existsb (String.eqb k) ks.

(** [df.drop(columns=ks, errors='ignore')] *)
Definition drop_ignore (ks : list string) (df : DataFrame) : DataFrame :=
  filter (fun kc => negb (mem (fst kc) ks)) df.

(** [df.drop(columns=ks)]: a label that is not a column is a [KeyError]. *)
Definition drop (ks : list string) (df : DataFrame) : result DataFrame :=
  _ <- mapM (fun k => get_item k df) ks ;;
  Ok (drop_ignore ks df).

(** [df.rename(columns=m)] *)
Fixpoint lookup (k : string) (m : list (string * string)) : option string :=
  match m with
  | [] => None
  | (a, b) :: m' => if String.eqb k a then Some b else lookup k m'
  end.

Definition rename (m : list (string * string)) (df : DataFrame) : DataFrame :=
  map (fun kc => match lookup (fst kc) m with
                 | Some k' => (k', snd kc)
                 | None => kc
                 end) df.

(** A column read as floats, as the comparisons and the arithmetic of the
    classifier read it. *)
Definition as_float (c : Column) : result (list Q) :=
  match c with
  | FloatCol xs => Ok xs
  | IntCol xs => Ok (map inject_Z xs)
  | StrCol _ | TimeCol _ => Raise TypeError
  end.

Definition get_float (k : string) (df : DataFrame) : result (list Q) :=
  c <- get_item k df ;; as_float c.

(** The [.dt] accessor exists on datetime columns only. *)
Definition as_time (c : Column) : result (list Z) :=
  match c with
  | TimeCol xs => Ok xs
  | _ => Raise AttributeError
  end.

End Frame.

(** ** [get_weather_data]: from the provider's daily series to the tables *)

Module Weather.

Local Open Scope string_scope.

(** Column names *)
Definition c_date : string := "日付".
Definition c_temp_max : string := "最高気温 (°C)".
Definition c_temp_min : string := "最低気温 (°C)".
Definition c_rain_sum : string := "安定した降雨量 (mm)".
Definition c_showers_sum : string := "にわか雨量 (mm)".
Definition c_daylight : string := "昼光時間 (時間)".
Definition c_sunshine : string := "日照時間 (時間)".
Definition c_sunrise : string := "日の出時刻".
Definition c_sunset : string := "日の入り時刻".
Definition c_precip_prob : string := "降水確率 最大 (%)".
Definition c_precip_sum : string := "降水合計 (mm)".
Definition c_ratio : string := "日照率".
Definition c_forecast : string := "天気予報".
Definition c_precip_out : string := "降水量 (mm)".

Definition fmt_HM : string := "%H:%M".
Definition fmt_md : string := "%m/%d".

Local Close Scope string_scope.

(** What [response.Daily()] holds: the ten variables in the order of the
    request, and [dates], the axis that [pd.date_range] builds from
    [Time()], [TimeEnd()] and [Interval()]. *)
Record Daily : Type := {
  dates : list Z;
  daily_temperature_2m_max : list Q;
  daily_temperature_2m_min : list Q;
  daily_rain_sum : list Q;
  daily_showers_sum : list Q;
  daily_daylight_duration : list Q;
  daily_sunshine_duration : list Q;
  daily_sunrise : list Z;
  daily_sunset : list Z;
  daily_precipitation_probability_max : list Q;
  daily_precipitation_sum : list Q
}.

Record ChartData : Type := {
  labels : list string;
  t_max : list Q;
  t_min : list Q;
  precipitation_sum : list Q
}.

(** The part of the returned dict that is computed here; the two tables are
    the frames handed to [to_html]. *)
Record Forecast : Type := {
  location_name : string;
  timezone_info : string;
  daily_table : Frame.DataFrame;
  chart_data : ChartData;
  custom_analysis_table : Frame.DataFrame
}.

Definition columns_to_drop_from_daily : list string :=
  [c_rain_sum; c_showers_sum; c_daylight; c_sunshine].

Section Pipeline.

(** pandas' clock: the instant [t] (epoch seconds), shown in zone [tz] with
    format [fmt]. *)
Variable strftime : string -> string -> Z -> string.

(** The forecast provider behind [openmeteo.weather_api]: for a coordinate,
    the zone name and the daily block of the first response, or the exception
    of a failed fetch. *)
Variable weather_api : Q -> Q -> result (string * Daily).

Definition get_weather_data (latitude longitude : Q) (name : string)
    : result Forecast :=
  response <- weather_api latitude longitude ;;
  let timezone_str := fst response in
  let daily := snd response in
  let daily_sunrise_dt := map (strftime timezone_str fmt_HM) (daily_sunrise daily) in
  let daily_sunset_dt := map (strftime timezone_str fmt_HM) (daily_sunset daily) in
  let daily_daylight_hours := map (fun x => x / 3600) (daily_daylight_duration daily) in
  let daily_sunshine_hours := map (fun x => x / 3600) (daily_sunshine_duration daily) in
  let daily_data := [(c_date, Frame.TimeCol (dates daily))] in
  let daily_data :=
    Frame.set_item c_temp_max
      (Frame.FloatCol (map round1 (daily_temperature_2m_max daily))) daily_data in
  let daily_data :=
    Frame.set_item c_temp_min
      (Frame.FloatCol (map round1 (daily_temperature_2m_min daily))) daily_data in
  let daily_data :=
    Frame.set_item c_rain_sum
      (Frame.FloatCol (map round1 (daily_rain_sum daily))) daily_data in
  let daily_data :=
    Frame.set_item c_showers_sum
      (Frame.FloatCol (map round1 (daily_showers_sum daily))) daily_data in
  let daily_data :=
    Frame.set_item c_daylight
      (Frame.FloatCol (map round1 daily_daylight_hours)) daily_data in
  let daily_data :=
    Frame.set_item c_sunshine
      (Frame.FloatCol (map round1 daily_sunshine_hours)) daily_data in
  let daily_data :=
    Frame.set_item c_sunrise (Frame.StrCol daily_sunrise_dt) daily_data in
  let daily_data :=
    Frame.set_item c_sunset (Frame.StrCol daily_sunset_dt) daily_data in
  let daily_data :=
    Frame.set_item c_precip_prob
      (Frame.IntCol (map (fun x => astype_int (rint x))
                       (daily_precipitation_probability_max daily)))
      daily_data in
  let daily_data :=
    Frame.set_item c_precip_sum
      (Frame.FloatCol (map round1 (daily_precipitation_sum daily))) daily_data in
  daily_dataframe <- Frame.make daily_data ;;
  let daily_display_df :=
    Frame.drop_ignore columns_to_drop_from_daily daily_dataframe in
  custom_df <- Frame.select [c_date; c_precip_sum; c_daylight; c_sunshine]
                 daily_dataframe ;;
  sunshine <- Frame.get_float c_sunshine custom_df ;;
  daylight <- Frame.get_float c_daylight custom_df ;;
  ratio <- Classifier.sunshine_ratio sunshine daylight ;;
  let custom_df := Frame.set_item c_ratio (Frame.FloatCol ratio) custom_df in
  ratio_col <- Frame.get_float c_ratio custom_df ;;
  precip_col <- Frame.get_float c_precip_sum custom_df ;;
  let custom_df :=
    Frame.set_item c_forecast
      (Frame.StrCol (Classifier.forecast precip_col ratio_col)) custom_df in
  date_col <- Frame.get_item c_date custom_df ;;
  ts <- Frame.as_time date_col ;;
  let custom_df :=
    Frame.set_item c_date
      (Frame.StrCol (map (strftime timezone_str fmt_md) ts)) custom_df in
  let custom_df :=
    Frame.rename [(c_precip_sum, c_precip_out); (c_daylight, c_daylight);
                  (c_sunshine, c_sunshine)] custom_df in
  custom_df <- Frame.drop [c_ratio] custom_df ;;
  custom_df <- Frame.select
                 [c_date; c_precip_out; c_daylight; c_sunshine; c_forecast]
                 custom_df ;;
  let chart :=
    {| labels := map (strftime timezone_str fmt_md) (dates daily);
       t_max := map round1 (daily_temperature_2m_max daily);
       t_min := map round1 (daily_temperature_2m_min daily);
       precipitation_sum := map round1 (daily_precipitation_sum daily) |} in
  Ok {| location_name := name;
        timezone_info := timezone_str;
        daily_table := daily_display_df;
        chart_data := chart;
        custom_analysis_table := custom_df |}.

End Pipeline.

(** The ten series and the date axis have one length. *)
Definition aligned (d : Daily) : Prop :=
  let n := List.length (dates d) in
  List.length (daily_temperature_2m_max d) = n /\
  List.length (daily_temperature_2m_min d) = n /\
  List.length (daily_rain_sum d) = n /\
  List.length (daily_showers_sum d) = n /\
  List.length (daily_daylight_duration d) = n /\
  List.length (daily_sunshine_duration d) = n /\
  List.length (daily_sunrise d) = n /\
  List.length (daily_sunset d) = n /\
  List.length (daily_precipitation_probability_max d) = n /\
  List.length (daily_precipitation_sum d) = n.

End Weather.

(** ** [load_prefecture_coords]: the coordinate table *)

Module Coords.

Local Open Scope string_scope.

(** An element of [PREFECTURE_DATA_LIST]. *)
Record Entry : Type := {
  display_name : string;
  latitude : Q;
  longitude : Q;
  region : string
}.

(** A row of [pd.read_csv(CSV_FILE_PATH)]; an empty cell is [None], the NaN
    of pandas. *)
Record CsvRow : Type := {
  prefecture : option string;    (* 都道府県 *)
  capital : option string;       (* 県庁所在地 *)
  region_cell : option string;   (* 地方 *)
  lat_cell : option string;      (* 緯度（北緯 N） *)
  lon_cell : option string       (* 経度（東経 E） *)
}.

(** What the loader finds at [CSV_FILE_PATH]: no file, a file that
    [read_csv] or a column lookup rejects, or a table. *)
Inductive CsvSource : Type :=
| Missing
| Broken (e : PyError)
| Parsed (rows : list CsvRow).

Inductive pyfloat : Type :=
| NaN
| Num (q : Q).

(** A row that [dropna] keeps. *)
Record CleanRow : Type := {
  row_prefecture : string;
  row_capital : string;
  row_region : string;
  lat_num : Q;
  lon_num : Q
}.

Definition DEFAULT_KEY : string := "データ読み込みエラー発生（東京を使用）".
Definition DEFAULT_latitude : Q := 35689 # 1000.
Definition DEFAULT_longitude : Q := 139692 # 1000.

Definition missing_file_entry : Entry :=
  {| display_name := DEFAULT_KEY; latitude := DEFAULT_latitude;
     longitude := 139692 # 1000; region := "関東" |}.

Definition error_entry : Entry :=
  {| display_name := DEFAULT_KEY; latitude := DEFAULT_latitude;
     longitude := DEFAULT_longitude; region := "エラー" |}.

Definition degree_mark : string := "∘".
Definition region_other : string := "その他".

(** [s.replace(pat, '')] for a non-empty [pat]: left to right, matches do not
    overlap.  [skip] counts the bytes of a match still to be dropped. *)
Fixpoint remove_from (pat : string) (skip : nat) (s : string) : string :=
  match s with
  | EmptyString => EmptyString
  | String c s' =>
      match skip with
      | S k => remove_from pat k s'
      | O =>
          if String.prefix pat s
          then remove_from pat (String.length pat - 1) s'
          else String c (remove_from pat 0 s')
      end
  end.

Definition str_remove (pat s : string) : string := remove_from pat 0 s.

(** [astype(str)] on one cell: NaN prints as [nan]. *)
Definition astype_str (c : option string) : string :=
  match c with
  | Some s => s
  | None => "nan"
  end.

Section Loader.

(** Python's [float(s)]: [None] is the [ValueError] of a text that is no
    number. *)
Variable float_of_string : string -> option pyfloat.

(** [col.astype(str).str.replace('∘', '').astype(float)] *)
Definition to_num (col : list (option string)) : result (list pyfloat) :=
  mapM (fun c =>
          match float_of_string (str_remove degree_mark (astype_str c)) with
          | Some f => Ok f
          | None => Raise ValueError
          end) col.

(** [df.dropna(subset=['都道府県', '県庁所在地', '緯度_num', '経度_num'])] on
    one row, whose [地方] cell [fillna] has already filled: the row stays when
    none of the four cells is NaN. *)
Definition dropna_row (r : CsvRow * (pyfloat * pyfloat)) : option CleanRow :=
  match prefecture (fst r), capital (fst r), fst (snd r), snd (snd r) with
  | Some p, Some c, Num lat, Num lon =>
      Some {| row_prefecture := p; row_capital := c;
              row_region := match region_cell (fst r) with
                            | Some g => g
                            | None => EmptyString
                            end;
              lat_num := lat; lon_num := lon |}
  | _, _, _, _ => None
  end.

Fixpoint dropna (rows : list (CsvRow * (pyfloat * pyfloat))) : list CleanRow :=
  match rows with
  | [] => []
  | r :: rest =>
      match dropna_row r with
      | Some c => c :: dropna rest
      | None => dropna rest
      end
  end.

(** The body of the [for index, row in df.iterrows()] loop. *)
Definition entry_of (row : CleanRow) : Entry :=
  let location_name := row_capital row in
  let prefecture_name := row_prefecture row in
  let region_name :=
    match row_region row with
    | EmptyString => region_other
    | _ => row_region row
    end in
  let display :=
    if String.eqb prefecture_name "東京都" then "東京都庁（新宿区）"
    else if String.eqb prefecture_name "北海道" then "北海道庁（札幌市）"
    else prefecture_name ++ "（" ++ location_name ++ "）" in
  {| display_name := display; latitude := lat_num row; longitude := lon_num row;
     region := region_name |}.

(** The loop: one [append] per remaining row. *)
Definition append_rows (table : list Entry) (rows : list CleanRow) : list Entry :=
  fold_left (fun acc row => (acc ++ [entry_of row])%list) rows table.

(** The [try] block. *)
Definition load_table (rows : list CsvRow) : result (list Entry) :=
  lat_num <- to_num (map lat_cell rows) ;;
  lon_num <- to_num (map lon_cell rows) ;;
  let df := dropna (combine rows (combine lat_num lon_num)) in
  Ok (append_rows [] df).

(** The new value of [PREFECTURE_DATA_LIST]. *)
Definition load_prefecture_coords (src : CsvSource) : list Entry :=
  match src with
  | Missing => ([] ++ [missing_file_entry])%list
  | Broken _ => [error_entry]
  | Parsed rows =>
      match load_table rows with
      | Ok table => table
      | Raise _ => [error_entry]
      end
  end.

End Loader.

(** A [float] for unsigned decimal texts ([12], [35.689], [.5], [nan]), used
    for sample data only.  Python's [float] accepts more (a sign, an
    exponent, surrounding blanks, [inf]); the two agree on every text the
    samples below contain. *)
Definition digit_of (c : ascii) : option Z :=
  let n := nat_of_ascii c in
  if Nat.leb 48 n && Nat.leb n 57 then Some (Z.of_nat (n - 48)) else None.

Fixpoint parse_digits (s : string) (acc : Z) (scale : positive)
    (frac seen : bool) : option Q :=
  match s with
  | EmptyString => if seen then Some (acc # scale) else None
  | String c s' =>
      if Ascii.eqb c "."
      then if frac then None else parse_digits s' acc scale true seen
      else match digit_of c with
           | Some d =>
               parse_digits s' (acc * 10 + d)
                 (if frac then (scale * 10)%positive else scale) frac true
           | None => None
           end
  end.

Definition decimal_float (s : string) : option pyfloat :=
  if String.eqb s "nan" then Some NaN
  else option_map Num (parse_digits s 0 1 false false).

End Coords.

(** ** [index]: the route that picks the entry and renders *)

Module Route.

Import Coords.

(** [request.method] and, for a POST, [request.form.get('prefecture_select')]. *)
Inductive Request : Type :=
| GET
| POST (prefecture_select : option string).

(** What [index] returns: the 500 page, the rendered template with the
    values handed to it, or the exception [get_weather_data] raised. *)
Inductive Response : Type :=
| Error500
| Rendered (weather : Weather.Forecast) (prefecture_data : list Entry)
    (selected_location : string)
| Failed (e : PyError).

(** [key in valid_keys]; the [None] of an absent form field equals no text. *)
Definition key_in (key : option string) (valid_keys : list string) : bool :=
  match key with
  | Some k => existsb (String.eqb k) valid_keys
  | None => false
  end.

(** [next((item for item in table if item['display_name'] == key), default)] *)
Fixpoint next_match (key : option string) (table : list Entry) (default : Entry)
  : Entry :=
  match table with
  | [] => default
  | item :: rest =>
      match key with
      | Some k =>
          if String.eqb (display_name item) k then item
          else next_match key rest default
      | None => next_match key rest default
      end
  end.

(** [sorted(table, key=lambda x: x['latitude'], reverse=True)]: a new list,
    stable, latitudes descending. *)
Fixpoint insert_desc (x : Entry) (l : list Entry) : list Entry :=
  match l with
  | [] => [x]
  | y :: l' =>
      if Qle_bool (latitude y) (latitude x) then x :: y :: l'
      else y :: insert_desc x l'
  end.

Definition sorted_desc (table : list Entry) : list Entry :=
  fold_right insert_desc [] table.

(** Steps 1, 4 and 5 of [index]: the key of the request, replaced by the
    default's when it is no key of the table, and the entry it finds. *)
Definition selected_data (default_data : Entry) (table : list Entry)
    (request : Request) : Entry :=
  let location_key := Some (display_name default_data) in
  let location_key :=
    match request with
    | GET => location_key
    | POST prefecture_select =>
        let valid_keys := map display_name table in
        if negb (key_in prefecture_select valid_keys)
        then Some (display_name default_data)
        else prefecture_select
    end in
  next_match location_key table default_data.

Section App.

Variable float_of_string : string -> option pyfloat.
Variable strftime : string -> string -> Z -> string.
Variable weather_api : Q -> Q -> result (string * Weather.Daily).

(** What is at [CSV_FILE_PATH]. *)
Variable csv : CsvSource.

(** [index], on the global [PREFECTURE_DATA_LIST]: the first component of the
    result is the global after the call. *)
Definition index (PREFECTURE_DATA_LIST : list Entry) (request : Request)
  : list Entry * Response :=
  let PREFECTURE_DATA_LIST :=
    match PREFECTURE_DATA_LIST with
    | [] => load_prefecture_coords float_of_string csv
    | _ => PREFECTURE_DATA_LIST
    end in
  match PREFECTURE_DATA_LIST with
  | [] => (PREFECTURE_DATA_LIST, Error500)
  | default_data :: _ =>
      let sorted_list := sorted_desc PREFECTURE_DATA_LIST in
      let selected := selected_data default_data PREFECTURE_DATA_LIST request in
      match Weather.get_weather_data strftime weather_api
              (latitude selected) (longitude selected)
              (display_name selected) with
      | Ok weather_data =>
          (PREFECTURE_DATA_LIST,
           Rendered weather_data sorted_list (display_name selected))
      | Raise e => (PREFECTURE_DATA_LIST, Failed e)
      end
  end.

End App.

End Route.

(** ** The statements of the specification, in its own words *)

Module Spec.

Import Classifier Weather Coords Route.

(** The five labels, the text the program shows for each, and the
    first-match chain as the specification words it. *)
Inductive Label : Type :=
| CLEAR | RAIN_WARNING | OCCASIONAL_RAIN | PARTLY_CLOUDY | CLOUDY.

Definition label_text (l : Label) : string :=
  match l with
  | CLEAR => text_clear
  | RAIN_WARNING => text_rain_warning
  | OCCASIONAL_RAIN => text_occasional_rain
  | PARTLY_CLOUDY => text_partly_cloudy
  | CLOUDY => text_cloudy
  end.

Definition classify_spec (precip ratio : Q) : Label :=
  if Qle_bool 5 precip then RAIN_WARNING
  else if Qlt_bool ratio 50 && (Qlt_bool 0 precip && Qlt_bool precip 5)
       then OCCASIONAL_RAIN
  else if Qeq_bool precip 0 && (Qle_bool 50 ratio && Qle_bool ratio 90)
       then PARTLY_CLOUDY
  else if Qeq_bool precip 0 && Qlt_bool ratio 50 then CLOUDY
  else CLEAR.

(** The four rules of the classifier and the priority chain: a label holds
    when its rule does and no rule before it does. *)
Definition rule1 (p : Q) : Prop := 5 <= p.
Definition rule2 (p r : Q) : Prop := r < 50 /\ 0 < p /\ p < 5.
Definition rule3 (p r : Q) : Prop := p == 0 /\ 50 <= r /\ r <= 90.
Definition rule4 (p r : Q) : Prop := p == 0 /\ r < 50.

Definition first_match (p r : Q) (l : Label) : Prop :=
  match l with
  | RAIN_WARNING => rule1 p
  | OCCASIONAL_RAIN => ~ rule1 p /\ rule2 p r
  | PARTLY_CLOUDY => ~ rule1 p /\ ~ rule2 p r /\ rule3 p r
  | CLOUDY => ~ rule1 p /\ ~ rule2 p r /\ ~ rule3 p r /\ rule4 p r
  | CLEAR => ~ rule1 p /\ ~ rule2 p r /\ ~ rule3 p r /\ ~ rule4 p r
  end.

Definition classify_row (pr : Q * Q) : string :=
  label_text (classify_spec (fst pr) (snd pr)).

(** The sunshine ratio of one day, without the exception. *)
Definition ratio_pct (s d : Q) : Q := (if Qgt_bool d 0 then s / d else 0) * 100.

(** Seconds to hours at display precision, as the builder does it. *)
Definition hours (secs : list Q) : list Q :=
  map round1 (map (fun x => x / 3600) secs).

Definition ratio_column (d : Daily) : list Q :=
  map (fun sd => ratio_pct (fst sd) (snd sd))
    (combine (hours (daily_sunshine_duration d))
             (hours (daily_daylight_duration d))).

(** The loader, row by row: what one row contributes on its own. *)
Section Rows.

Variable float_of_string : string -> option pyfloat.

Definition cell_float (c : option string) : option pyfloat :=
  float_of_string (str_remove degree_mark (astype_str c)).

Definition cell_value (c : option string) : pyfloat :=
  match cell_float c with
  | Some f => f
  | None => NaN
  end.

(** Both coordinate cells of the row are NaN or a number for [float]. *)
Definition parses (r : CsvRow) : Prop :=
  cell_float (lat_cell r) <> None /\ cell_float (lon_cell r) <> None.

Definition row_entry (r : CsvRow) : option Entry :=
  match prefecture r, capital r,
        cell_float (lat_cell r), cell_float (lon_cell r) with
  | Some p, Some c, Some (Num lat), Some (Num lon) =>
      Some (entry_of {| row_prefecture := p; row_capital := c;
                        row_region := match region_cell r with
                                      | Some g => g
                                      | None => EmptyString
                                      end;
                        lat_num := lat; lon_num := lon |})
  | _, _, _, _ => None
  end.

Fixpoint loaded_rows (rows : list CsvRow) : list Entry :=
  match rows with
  | [] => []
  | r :: rest =>
      match row_entry r with
      | Some e => e :: loaded_rows rest
      | None => loaded_rows rest
      end
  end.

End Rows.

(** North to south. *)
Definition northward (a b : Entry) : Prop := latitude b <= latitude a.

(** A POST whose key is absent or names no entry of the table. *)
Definition unknown_key (table : list Entry) (request : Request) : Prop :=
  match request with
  | GET => False
  | POST key => key_in key (map display_name table) = false
  end.

(** The table a call of [index] works on: the global when it is populated,
    else what the loader makes of the file. *)
Definition table_in_use (float_of_string : string -> option pyfloat)
    (csv : CsvSource) (global : list Entry) : list Entry :=
  match global with
  | [] => load_prefecture_coords float_of_string csv
  | _ => global
  end.

(** No byte of the text is the first byte of the degree mark. *)
Fixpoint mark_free (s : string) : bool :=
  match s with
  | EmptyString => true
  | String c s' => negb (Ascii.eqb c "226") && mark_free s'
  end.

(** The entries at latitude [q]. *)
Definition at_latitude (q : Q) (e : Entry) : bool := Qeq_bool (latitude e) q.

End Spec.

(** ** Sample data *)

Module Sample.

Import Weather Coords Route.

Local Open Scope string_scope.

Definition clock (tz fmt : string) (t : Z) : string := fmt.

(** One forecast day. *)
Definition one_day (daylight_s sunshine_s probability precipitation : Q) : Daily :=
  {| dates := [0%Z];
     daily_temperature_2m_max := [21 # 2];
     daily_temperature_2m_min := [4];
     daily_rain_sum := [precipitation];
     daily_showers_sum := [0];
     daily_daylight_duration := [daylight_s];
     daily_sunshine_duration := [sunshine_s];
     daily_sunrise := [0%Z];
     daily_sunset := [0%Z];
     daily_precipitation_probability_max := [probability];
     daily_precipitation_sum := [precipitation] |}.

Definition provider (d : Daily) (latitude longitude : Q)
  : result (string * Daily) := Ok ("Asia/Tokyo", d).

Definition tokyo : Entry :=
  {| display_name := "東京都庁（新宿区）"; latitude := 35689 # 1000;
     longitude := 139692 # 1000; region := "関東" |}.

Definition sapporo : Entry :=
  {| display_name := "北海道庁（札幌市）"; latitude := 43064 # 1000;
     longitude := 141347 # 1000; region := "北海道" |}.

Definition row_tokyo : CsvRow :=
  {| prefecture := Some "東京都"; capital := Some "新宿区";
     region_cell := Some "関東"; lat_cell := Some "35.689∘";
     lon_cell := Some "139.692∘" |}.

Definition row_no_capital : CsvRow :=
  {| prefecture := Some "北海道"; capital := None;
     region_cell := None; lat_cell := Some "43.064";
     lon_cell := Some "141.347" |}.

Definition row_bad_latitude : CsvRow :=
  {| prefecture := Some "北海道"; capital := Some "札幌市";
     region_cell := Some "北海道"; lat_cell := Some "north";
     lon_cell := Some "141.347" |}.

End Sample.

(** A comparison result as the order it stands for. *)
Ltac qcompare_prop H :=
  match type of H with
  | Qcompare _ _ = Eq => apply Qeq_alt in H
  | Qcompare _ _ = Lt => apply Qlt_alt in H
  | Qcompare _ _ = Gt => apply Qgt_alt in H
  end.

(** ** Auxiliary facts *)

Module Facts.

Import Classifier Weather Frame Coords Route Spec.

(** *** Comparisons *)

Lemma Qlt_bool_iff a b : Qlt_bool a b = true <-> a < b.
Proof.
  unfold Qlt_bool. rewrite negb_true_iff. split; intros H.
  - apply Qnot_le_lt. intros Hle. apply Qle_bool_iff in Hle. congruence.
  - destruct (Qle_bool b a) eqn:E; [|reflexivity].
    apply Qle_bool_iff in E. exfalso. apply (Qlt_not_le _ _ H E).
Qed.

Lemma Qle_bool_reflect a b : reflect (a <= b) (Qle_bool a b).
Proof. apply iff_reflect. symmetry. apply Qle_bool_iff. Qed.

Lemma Qlt_bool_reflect a b : reflect (a < b) (Qlt_bool a b).
Proof. apply iff_reflect. symmetry. apply Qlt_bool_iff. Qed.

Lemma Qeq_bool_reflect a b : reflect (a == b) (Qeq_bool a b).
Proof. apply iff_reflect. symmetry. apply Qeq_bool_iff. Qed.

(** *** Rounding *)

Lemma rint_floor_or_next x : rint x = Qfloor x \/ rint x = (Qfloor x + 1)%Z.
Proof.
  unfold rint. destruct (Qcompare _ _); [destruct (Z.even _)| |]; auto.
Qed.



(** *** Lists *)

Lemma nth_error_combine {A B : Type} (l : list A) : forall (r : list B) i a b,
  nth_error l i = Some a -> nth_error r i = Some b ->
  nth_error (combine l r) i = Some (a, b).
Proof.
  induction l as [|x l IH]; intros [|y r] [|i] a b Ha Hb; cbn in *;
    try discriminate.
  - congruence.
  - now apply IH.
Qed.

Lemma mapM_total {A B : Type} (f : A -> result B) (g : A -> B) (l : list A) :
  (forall x, f x = Ok (g x)) -> mapM f l = Ok (map g l).
Proof.
  intros Hf. induction l as [|x l IH]; cbn [mapM map]; [reflexivity|].
  rewrite Hf, IH. reflexivity.
Qed.

(** *** The classifier *)

Lemma label_text_inj a b : label_text a = label_text b -> a = b.
Proof. destruct a, b; intros H; try reflexivity; discriminate H. Qed.

Lemma classify_spec_first_match p r l :
  classify_spec p r = l <-> first_match p r l.
Proof.
  unfold classify_spec, first_match, rule1, rule2, rule3, rule4.
  destruct (Qle_bool_reflect 5 p), (Qlt_bool_reflect r 50),
    (Qlt_bool_reflect 0 p), (Qlt_bool_reflect p 5), (Qeq_bool_reflect p 0),
    (Qle_bool_reflect 50 r), (Qle_bool_reflect r 90);
    cbn [andb]; destruct l; split; intros H;
    try discriminate H; try reflexivity; try tauto; exfalso; try tauto;
    try lra.
Qed.

(** One row of the four [loc] assignments is the first-match chain. *)
Lemma forecast_cons p ps r rs :
  forecast (p :: ps) (r :: rs) = classify_row (p, r) :: forecast ps rs.
Proof.
  unfold forecast, classify_row.
  cbn [List.length repeat Series.lt Series.le Series.ge Series.gt Series.eq
       Series.and Series.not Series.loc_set map Series.zip_with fst snd].
  f_equal.
  unfold classify_spec, Qge_bool, Qgt_bool, Qlt_bool.
  destruct (Qle_bool 5 p), (Qle_bool p 0), (Qeq_bool p 0), (Qle_bool 50 r),
    (Qle_bool r 90); reflexivity.
Qed.

Lemma forecast_rows ps : forall rs,
  List.length ps = List.length rs ->
  forecast ps rs = map classify_row (combine ps rs).
Proof.
  induction ps as [|p ps IH]; intros [|r rs] H; try discriminate H.
  - reflexivity.
  - rewrite forecast_cons. cbn [combine map]. f_equal. apply IH.
    now injection H.
Qed.

Lemma forecast_nth ps rs i p r :
  List.length ps = List.length rs ->
  nth_error ps i = Some p -> nth_error rs i = Some r ->
  nth_error (forecast ps rs) i = Some (label_text (classify_spec p r)).
Proof.
  intros Hlen Hp Hr. rewrite forecast_rows by exact Hlen.
  rewrite nth_error_map. erewrite nth_error_combine by eassumption.
  reflexivity.
Qed.

(** *** The sunshine ratio *)

Lemma ratio_lambda_total s d :
  ratio_lambda s d = Ok (if Qgt_bool d 0 then s / d else 0).
Proof.
  unfold ratio_lambda, truediv.
  destruct (Qgt_bool d 0) eqn:Hd; [|reflexivity].
  destruct (Qeq_bool d 0) eqn:He; [|reflexivity].
  apply Qeq_bool_iff in He.
  apply Qlt_bool_iff in Hd. lra.
Qed.

Lemma sunshine_ratio_total s d :
  sunshine_ratio s d =
  Ok (map (fun sd => ratio_pct (fst sd) (snd sd)) (combine s d)).
Proof.
  unfold sunshine_ratio.
  rewrite (mapM_total _
             (fun row => if Qgt_bool (snd row) 0 then fst row / snd row else 0)).
  - cbn [bind]. rewrite map_map. reflexivity.
  - intros [a b]. apply ratio_lambda_total.
Qed.

Lemma ratio_pct_dark s d : d <= 0 -> ratio_pct s d == 0.
Proof.
  intros Hd. unfold ratio_pct, Qgt_bool.
  destruct (Qlt_bool_reflect 0 d) as [H|_]; [lra|reflexivity].
Qed.

Lemma ratio_pct_light s d : 0 < d -> ratio_pct s d == 100 * s / d.
Proof.
  intros Hd. unfold ratio_pct, Qgt_bool.
  apply Qlt_bool_iff in Hd as E. rewrite E. field. lra.
Qed.

End Facts.

(** ** Facts on rounding *)

Module RoundingFacts.

Import Facts.

Lemma rint_mono x y : x <= y -> (rint x <= rint y)%Z.
Proof.
  intros Hxy.
  pose proof (Qfloor_resp_le _ _ Hxy) as Hf.
  destruct (Z.eq_dec (Qfloor x) (Qfloor y)) as [E|N].
  - unfold rint. rewrite E.
    destruct (Qcompare (x - inject_Z (Qfloor y)) (1 # 2)) eqn:Cx;
      destruct (Qcompare (y - inject_Z (Qfloor y)) (1 # 2)) eqn:Cy;
      qcompare_prop Cx; qcompare_prop Cy;
      destruct (Z.even (Qfloor y)); try lia; exfalso; lra.
  - destruct (rint_floor_or_next x) as [-> | ->],
             (rint_floor_or_next y) as [-> | ->]; lia.
Qed.




Lemma round1_mono x y : x <= y -> round1 x <= round1 y.
Proof.
  intros H. unfold round1.
  assert (rint (x * 10) <= rint (y * 10))%Z as Hz by (apply rint_mono; lra).
  rewrite Zle_Qle in Hz.
  set (A := inject_Z (rint (x * 10))) in *.
  set (B := inject_Z (rint (y * 10))) in *.
  assert (A / 10 == A * (1 # 10)) as -> by field.
  assert (B / 10 == B * (1 # 10)) as -> by field.
  lra.
Qed.

End RoundingFacts.

Module PipelineFacts.

Import Classifier Weather Frame Spec Facts.

(** On aligned series no step of [get_weather_data] raises, and the two
    tables and the chart are these. *)
Lemma get_weather_data_ok strftime api lat lon name tz d :
  api lat lon = Ok (tz, d) ->
  aligned d ->
  get_weather_data strftime api lat lon name =
  Ok {| location_name := name;
        timezone_info := tz;
        daily_table :=
          [(c_date, TimeCol (dates d));
           (c_temp_max, FloatCol (map round1 (daily_temperature_2m_max d)));
           (c_temp_min, FloatCol (map round1 (daily_temperature_2m_min d)));
           (c_sunrise, StrCol (map (strftime tz fmt_HM) (daily_sunrise d)));
           (c_sunset, StrCol (map (strftime tz fmt_HM) (daily_sunset d)));
           (c_precip_prob,
            IntCol (map (fun x => astype_int (rint x))
                      (daily_precipitation_probability_max d)));
           (c_precip_sum, FloatCol (map round1 (daily_precipitation_sum d)))];
        chart_data :=
          {| labels := map (strftime tz fmt_md) (dates d);
             t_max := map round1 (daily_temperature_2m_max d);
             t_min := map round1 (daily_temperature_2m_min d);
             precipitation_sum := map round1 (daily_precipitation_sum d) |};
        custom_analysis_table :=
          [(c_date, StrCol (map (strftime tz fmt_md) (dates d)));
           (c_precip_out, FloatCol (map round1 (daily_precipitation_sum d)));
           (c_daylight, FloatCol (hours (daily_daylight_duration d)));
           (c_sunshine, FloatCol (hours (daily_sunshine_duration d)));
           (c_forecast,
            StrCol (forecast (map round1 (daily_precipitation_sum d))
                             (ratio_column d)))] |}.
Proof.
  intros Hapi.
  unfold ratio_column, hours.
  destruct d as [dts tmax tmin rain showers dl ss sr sst pp ps].
  unfold aligned;
    cbn [dates daily_temperature_2m_max daily_temperature_2m_min
         daily_rain_sum daily_showers_sum daily_daylight_duration
         daily_sunshine_duration daily_sunrise daily_sunset
         daily_precipitation_probability_max daily_precipitation_sum].
  intros (H1 & H2 & H3 & H4 & H5 & H6 & H7 & H8 & H9 & H10).
  unfold get_weather_data. rewrite Hapi.
  cbn.
  rewrite !length_map, H1, H2, H3, H4, H5, H6, H7, H8, H9, H10, Nat.eqb_refl.
  cbn.
  rewrite sunshine_ratio_total.
  cbn.
  reflexivity.
Qed.

End PipelineFacts.

Module LoaderFacts.

Import Coords Spec.

Section Rows.

Variable fos : string -> option pyfloat.

Lemma append_rows_map rows : forall table,
  append_rows table rows = (table ++ map entry_of rows)%list.
Proof.
  unfold append_rows. induction rows as [|r rows IH]; intros table; cbn.
  - now rewrite app_nil_r.
  - rewrite IH, <- app_assoc. reflexivity.
Qed.

(** A coordinate column converts as a whole or not at all. *)
Lemma to_num_cases col :
  (Forall (fun c => cell_float fos c <> None) col /\
   to_num fos col = Ok (map (cell_value fos) col)) \/
  (Exists (fun c => cell_float fos c = None) col /\
   to_num fos col = Raise ValueError).
Proof.
  induction col as [|c col IH].
  - left. split; [constructor|reflexivity].
  - unfold to_num in *. cbn [mapM map].
    assert (cell_float fos c = fos (str_remove degree_mark (astype_str c)))
      as Hc by reflexivity.
    destruct (fos (str_remove degree_mark (astype_str c))) as [f|].
    + assert (cell_value fos c = f) as ->
        by (unfold cell_value; now rewrite Hc).
      cbn [bind]. destruct IH as [[Hall ->]|[Hex ->]]; cbn [bind].
      * left. split; [|reflexivity].
        constructor; [congruence|exact Hall].
      * right. split; [now apply Exists_cons_tl|reflexivity].
    + right. split; [now apply Exists_cons_hd|reflexivity].
Qed.

Lemma dropna_rows rows :
  Forall (parses fos) rows ->
  map entry_of
    (dropna (combine rows
               (combine (map (cell_value fos) (map lat_cell rows))
                        (map (cell_value fos) (map lon_cell rows))))) =
  loaded_rows fos rows.
Proof.
  induction 1 as [|r rows [Hla Hlo] _ IH]; [reflexivity|].
  cbn [map combine dropna loaded_rows].
  unfold dropna_row, row_entry. cbn [fst snd].
  assert (cell_value fos (lat_cell r) =
          match cell_float fos (lat_cell r) with Some f => f | None => NaN end)
    as -> by reflexivity.
  assert (cell_value fos (lon_cell r) =
          match cell_float fos (lon_cell r) with Some f => f | None => NaN end)
    as -> by reflexivity.
  destruct (cell_float fos (lat_cell r)) as [la|]; [|contradiction].
  destruct (cell_float fos (lon_cell r)) as [lo|]; [|contradiction].
  destruct (prefecture r), (capital r), la, lo; cbn [map]; rewrite ?IH;
    reflexivity.
Qed.

Lemma load_table_parsed rows :
  Forall (parses fos) rows ->
  load_table fos rows = Ok (loaded_rows fos rows).
Proof.
  intros Hall. unfold load_table.
  destruct (to_num_cases (map lat_cell rows)) as [[_ ->]|[Hex _]].
  - destruct (to_num_cases (map lon_cell rows)) as [[_ ->]|[Hex _]].
    + cbn [bind]. rewrite append_rows_map. cbn [app].
      now rewrite dropna_rows.
    + exfalso. apply Exists_exists in Hex as (c & Hin & Hc).
      apply in_map_iff in Hin as (r & <- & Hin).
      rewrite Forall_forall in Hall. destruct (Hall r Hin). contradiction.
  - exfalso. apply Exists_exists in Hex as (c & Hin & Hc).
    apply in_map_iff in Hin as (r & <- & Hin).
    rewrite Forall_forall in Hall. destruct (Hall r Hin). contradiction.
Qed.

Lemma load_table_unparsed rows r :
  In r rows -> ~ parses fos r ->
  load_table fos rows = Raise ValueError.
Proof.
  intros Hin Hn. unfold load_table.
  destruct (to_num_cases (map lat_cell rows)) as [[Hlat ->]|[_ ->]];
    [|reflexivity].
  destruct (to_num_cases (map lon_cell rows)) as [[Hlon ->]|[_ ->]];
    [|reflexivity].
  exfalso. apply Hn. rewrite Forall_forall in Hlat, Hlon. split.
  - apply Hlat. now apply in_map.
  - apply Hlon. now apply in_map.
Qed.

(** The loaded entries are those of the rows that contribute one. *)
Lemma loaded_rows_In rows e :
  In e (loaded_rows fos rows) <->
  exists r, In r rows /\ row_entry fos r = Some e.
Proof.
  induction rows as [|r rows IH]; cbn [loaded_rows].
  - split; [intros []|intros (r & [] & _)].
  - destruct (row_entry fos r) as [e'|] eqn:E.
    + split.
      * intros [<-|H]; [exists r; split; [now left|exact E]|].
        apply IH in H as (r' & Hin & Hr'). exists r'. split; [now right|exact Hr'].
      * intros (r' & [<-|Hin] & Hr').
        -- left. congruence.
        -- right. apply IH. now exists r'.
    + rewrite IH. split.
      * intros (r' & Hin & Hr'). exists r'. split; [now right|exact Hr'].
      * intros (r' & [<-|Hin] & Hr'); [congruence|now exists r'].
Qed.

(** A row with an empty cell among the four contributes nothing. *)
Lemma row_entry_missing r :
  fos "nan"%string = Some NaN ->
  prefecture r = None \/ capital r = None \/
  lat_cell r = None \/ lon_cell r = None ->
  row_entry fos r = None.
Proof.
  intros Hnan H. unfold row_entry.
  destruct H as [-> | [-> | [H | H]]].
  - reflexivity.
  - now destruct (prefecture r).
  - rewrite H. unfold cell_float at 1. cbn [astype_str].
    change (str_remove degree_mark "nan") with "nan"%string. rewrite Hnan.
    now destruct (prefecture r), (capital r).
  - rewrite H. unfold cell_float at 2. cbn [astype_str].
    change (str_remove degree_mark "nan") with "nan"%string. rewrite Hnan.
    destruct (prefecture r), (capital r); try reflexivity.
    now destruct (cell_float fos (lat_cell r)) as [[|]|].
Qed.

End Rows.

End LoaderFacts.

Module RouteFacts.

Import Coords Route Spec.

Lemma insert_desc_perm x l : Permutation (x :: l) (insert_desc x l).
Proof.
  induction l as [|y l IH]; cbn [insert_desc]; [reflexivity|].
  destruct (Qle_bool (latitude y) (latitude x)); [reflexivity|].
  rewrite perm_swap. now constructor.
Qed.

Lemma sorted_desc_perm table : Permutation table (sorted_desc table).
Proof.
  induction table as [|x l IH]; cbn; [constructor|].
  rewrite <- insert_desc_perm. now constructor.
Qed.

Lemma insert_desc_sorted x l :
  StronglySorted northward l -> StronglySorted northward (insert_desc x l).
Proof.
  induction 1 as [|y l Hs IH Hall]; cbn [insert_desc].
  - constructor; constructor.
  - destruct (Qle_bool (latitude y) (latitude x)) eqn:E.
    + apply Qle_bool_iff in E. constructor; [now constructor|].
      constructor; [exact E|].
      eapply Forall_impl; [|exact Hall]. unfold northward. intros z Hz.
      eapply Qle_trans; eassumption.
    + constructor; [exact IH|].
      assert (latitude x <= latitude y) as Hxy.
      { apply Qlt_le_weak, Qnot_le_lt. intros H. apply Qle_bool_iff in H.
        congruence. }
      eapply Permutation_Forall; [apply insert_desc_perm|].
      constructor; assumption.
Qed.

Lemma sorted_desc_sorted table : StronglySorted northward (sorted_desc table).
Proof.
  induction table as [|x l IH]; cbn; [constructor|].
  now apply insert_desc_sorted.
Qed.

Lemma next_match_head e rest d :
  next_match (Some (display_name e)) (e :: rest) d = e.
Proof. cbn [next_match]. now rewrite String.eqb_refl. Qed.

Lemma selected_data_default e rest request :
  request = GET \/ unknown_key (e :: rest) request ->
  selected_data e (e :: rest) request = e.
Proof.
  unfold selected_data. intros [->|H].
  - apply next_match_head.
  - destruct request as [|key]; [contradiction|].
    cbn [unknown_key] in H. rewrite H. cbn [negb]. apply next_match_head.
Qed.

(** [index] on a populated table: no reload, no error page. *)
Section Requests.

Variable float_of_string : string -> option pyfloat.
Variable strftime : string -> string -> Z -> string.
Variable weather_api : Q -> Q -> result (string * Weather.Daily).
Variable csv : CsvSource.

Lemma index_populated global e rest request :
  table_in_use float_of_string csv global = e :: rest ->
  index float_of_string strftime weather_api csv global request =
  let selected := selected_data e (e :: rest) request in
  match Weather.get_weather_data strftime weather_api (latitude selected)
          (longitude selected) (display_name selected) with
  | Ok weather_data =>
      (e :: rest,
       Rendered weather_data (sorted_desc (e :: rest)) (display_name selected))
  | Raise err => (e :: rest, Failed err)
  end.
Proof.
  unfold index, table_in_use. destruct global as [|e0 l]; intros H.
  - rewrite H. reflexivity.
  - injection H as -> ->. reflexivity.
Qed.

(** Without a single entry to fall back on there is only the error page. *)
Lemma index_empty global request :
  table_in_use float_of_string csv global = [] ->
  index float_of_string strftime weather_api csv global request =
  ([], Error500).
Proof.
  unfold index, table_in_use. destruct global as [|e0 l]; intros H.
  - rewrite H. reflexivity.
  - discriminate H.
Qed.

End Requests.

End RouteFacts.

(** ** The claims *)

Import Classifier Weather Frame Coords Route Spec.
Import Facts RoundingFacts PipelineFacts LoaderFacts RouteFacts.

(** C1. The forecast column is a function of the day's precipitation sum and
    sunshine ratio alone: every cell is the text of exactly one of the five
    labels, the one the first-match chain picks (RAIN_WARNING iff
    precip >= 5; else OCCASIONAL_RAIN iff ratio < 50 and 0 < precip < 5; else
    PARTLY_CLOUDY iff precip == 0 and 50 <= ratio <= 90; else CLOUDY iff
    precip == 0 and ratio < 50; else CLEAR), a matching rule is never
    overridden by a later one, and Scenarios A to E hold. *)
Theorem classifier_priority_chain :
  (forall (precip ratio : list Q) i p r,
      List.length precip = List.length ratio ->
      nth_error precip i = Some p -> nth_error ratio i = Some r ->
      exists l,
        nth_error (forecast precip ratio) i = Some (label_text l) /\
        l = classify_spec p r /\
        first_match p r l /\
        (forall l', first_match p r l' -> l' = l)) /\
  (forall precip ratio,
      List.length precip = List.length ratio ->
      List.length (forecast precip ratio) = List.length precip) /\
  (forall a b, label_text a = label_text b -> a = b) /\
  forecast [6; 2; 0; 0; 0] [80; 30; 70; 20; 95] =
  [text_rain_warning; text_occasional_rain; text_partly_cloudy; text_cloudy;
   text_clear].
Proof.
  split; [|split; [|split]].
  - intros precip ratio i p r Hlen Hp Hr.
    exists (classify_spec p r). split; [|split; [|split]].
    + now apply forecast_nth.
    + reflexivity.
    + now apply classify_spec_first_match.
    + intros l' H. apply classify_spec_first_match in H. now symmetry.
  - intros precip ratio Hlen. rewrite forecast_rows by exact Hlen.
    rewrite length_map, length_combine, <- Hlen. apply Nat.min_id.
  - apply label_text_inj.
  - vm_compute. reflexivity.
Qed.

Lemma classifier_priority_chain_witness :
  exists l,
    nth_error (forecast [6] [80]) 0 = Some (label_text l) /\
    l = classify_spec 6 80 /\
    first_match 6 80 l /\
    (forall l', first_match 6 80 l' -> l' = l).
Proof.
  exact (proj1 classifier_priority_chain [6] [80] 0%nat 6 80
           eq_refl eq_refl eq_refl).
Defined.

(** C8. A day whose precipitation sum is strictly negative is labelled
    CLEAR whatever its sunshine ratio: it matches none of rules 1 to 4. *)
Theorem negative_precip_is_clear (precip ratio : list Q) i p r :
  List.length precip = List.length ratio ->
  nth_error precip i = Some p -> nth_error ratio i = Some r ->
  p < 0 ->
  nth_error (forecast precip ratio) i = Some text_clear.
Proof.
  intros Hlen Hp Hr Hneg.
  erewrite forecast_nth by eassumption.
  change text_clear with (label_text CLEAR). do 2 f_equal.
  apply classify_spec_first_match.
  unfold first_match, rule1, rule2, rule3, rule4.
  repeat split; intros H; lra.
Qed.

Lemma negative_precip_is_clear_witness :
  nth_error (forecast [-(1 # 2)] [20]) 0 = Some text_clear.
Proof.
  apply (@negative_precip_is_clear [-(1 # 2)] [20] 0%nat (-(1 # 2)) 20);
    reflexivity.
Defined.

(** C9. A day with 0 < precip < 5 and a sunshine ratio of at least 50 is
    labelled CLEAR: light rain under enough sun matches none of rules
    1 to 4. *)
Theorem light_rain_in_sun_is_clear (precip ratio : list Q) i p r :
  List.length precip = List.length ratio ->
  nth_error precip i = Some p -> nth_error ratio i = Some r ->
  0 < p -> p < 5 -> 50 <= r ->
  nth_error (forecast precip ratio) i = Some text_clear.
Proof.
  intros Hlen Hp Hr H0 H5 H50.
  erewrite forecast_nth by eassumption.
  change text_clear with (label_text CLEAR). do 2 f_equal.
  apply classify_spec_first_match.
  unfold first_match, rule1, rule2, rule3, rule4.
  repeat split; intros H; lra.
Qed.

Lemma light_rain_in_sun_is_clear_witness :
  nth_error (forecast [2] [60]) 0 = Some text_clear.
Proof.
  apply (@light_rain_in_sun_is_clear [2] [60] 0%nat 2 60);
    try reflexivity; unfold Qle; simpl; lia.
Defined.

(** C2. For every day the sunshine ratio is 0 when daylight_hours <= 0 and
    100 * sunshine_hours / daylight_hours when daylight_hours > 0; the guarded
    division never raises; a day with daylight 0, sunshine 0 and
    precipitation 0 has ratio 0 and is labelled CLOUDY, column by column and
    through the whole of [get_weather_data] (Scenario F). *)
Theorem sunshine_ratio_guarded :
  (forall sunshine daylight : list Q,
      List.length sunshine = List.length daylight ->
      exists ratio,
        sunshine_ratio sunshine daylight = Ok ratio /\
        List.length ratio = List.length daylight /\
        forall i s d,
          nth_error sunshine i = Some s -> nth_error daylight i = Some d ->
          exists r,
            nth_error ratio i = Some r /\
            (d <= 0 -> r == 0) /\
            (0 < d -> r == 100 * s / d) /\
            (forall precip p,
                List.length precip = List.length ratio ->
                nth_error precip i = Some p ->
                d == 0 -> s == 0 -> p == 0 ->
                nth_error (forecast precip ratio) i = Some text_cloudy)) /\
  (forall strftime lat lon name probability,
      exists w,
        get_weather_data strftime
          (Sample.provider (Sample.one_day 0 0 probability 0)) lat lon name =
          Ok w /\
        get_item c_forecast (custom_analysis_table w) =
          Ok (StrCol [text_cloudy])).
Proof.
  split.
  - intros sunshine daylight Hlen.
    eexists. split; [apply sunshine_ratio_total|]. split.
    + rewrite length_map, length_combine, Hlen. apply Nat.min_id.
    + intros i s d Hs Hd. exists (ratio_pct s d). split; [|split; [|split]].
      * rewrite nth_error_map. erewrite nth_error_combine by eassumption.
        reflexivity.
      * apply ratio_pct_dark.
      * apply ratio_pct_light.
      * intros precip p Hlp Hp Hd0 Hs0 Hp0.
        erewrite forecast_nth; [| exact Hlp | exact Hp |].
        2:{ rewrite nth_error_map. erewrite nth_error_combine by eassumption.
            reflexivity. }
        change text_cloudy with (label_text CLOUDY). do 2 f_equal.
        apply classify_spec_first_match.
        assert (ratio_pct s d == 0) as Hr by (apply ratio_pct_dark; lra).
        cbn [fst snd].
        unfold first_match, rule1, rule2, rule3, rule4.
        repeat split; try (intros H); lra.
  - intros strftime lat lon name probability. eexists. split.
    + apply get_weather_data_ok; [reflexivity|]. cbn. repeat split.
    + vm_compute. reflexivity.
Qed.

Lemma sunshine_ratio_guarded_witness :
  exists ratio,
    sunshine_ratio [0] [0] = Ok ratio /\
    List.length ratio = List.length [0] /\
    forall i s d,
      nth_error [0] i = Some s -> nth_error [0] i = Some d ->
      exists r,
        nth_error ratio i = Some r /\
        (d <= 0 -> r == 0) /\
        (0 < d -> r == 100 * s / d) /\
        (forall precip p,
            List.length precip = List.length ratio ->
            nth_error precip i = Some p ->
            d == 0 -> s == 0 -> p == 0 ->
            nth_error (forecast precip ratio) i = Some text_cloudy).
Proof. exact (proj1 sunshine_ratio_guarded [0] [0] eq_refl). Defined.

(** C3, as amended.  For every day with daylight_hours <= 0 the sunshine
    ratio is exactly 0, and for every day with daylight_hours > 0 and
    0 <= sunshine_hours <= daylight_hours it lies in [0, 100]; nothing
    clamps it, so outside that range of sunshine_hours it leaves [0, 100]. *)
Theorem sunshine_ratio_range (sunshine daylight : list Q) :
  List.length sunshine = List.length daylight ->
  exists ratio,
    sunshine_ratio sunshine daylight = Ok ratio /\
    forall i s d,
      nth_error sunshine i = Some s -> nth_error daylight i = Some d ->
      exists r,
        nth_error ratio i = Some r /\
        (d <= 0 -> r == 0) /\
        (0 < d -> 0 <= s -> s <= d -> 0 <= r /\ r <= 100) /\
        (0 < d -> d < s -> 100 < r) /\
        (0 < d -> s < 0 -> r < 0).
Proof.
  intros _. eexists. split; [apply sunshine_ratio_total|].
  intros i s d Hs Hd. exists (ratio_pct s d).
  split; [|split; [|split; [|split]]].
  - rewrite nth_error_map. erewrite nth_error_combine by eassumption.
    reflexivity.
  - apply ratio_pct_dark.
  - intros Hpos H0 H1. rewrite (ratio_pct_light s Hpos). split.
    + apply Qle_shift_div_l; [exact Hpos|lra].
    + apply Qle_shift_div_r; [exact Hpos|lra].
  - intros Hpos H1. rewrite (ratio_pct_light s Hpos).
    apply Qlt_shift_div_l; [exact Hpos|lra].
  - intros Hpos H1. rewrite (ratio_pct_light s Hpos).
    apply Qlt_shift_div_r; [exact Hpos|lra].
Qed.

Lemma sunshine_ratio_range_witness :
  exists ratio,
    sunshine_ratio [3] [12] = Ok ratio /\
    forall i s d,
      nth_error [3] i = Some s -> nth_error [12] i = Some d ->
      exists r,
        nth_error ratio i = Some r /\
        (d <= 0 -> r == 0) /\
        (0 < d -> 0 <= s -> s <= d -> 0 <= r /\ r <= 100) /\
        (0 < d -> d < s -> 100 < r) /\
        (0 < d -> s < 0 -> r < 0).
Proof. apply (@sunshine_ratio_range [3] [12]). reflexivity. Defined.

(** C3 as stated fails: the builder turns 7200 s of sunshine and 3600 s of
    daylight into 2.0 h and 1.0 h, daylight is positive, and the ratio is
    200. *)
Lemma sunshine_ratio_exceeds_100 :
  exists s d r,
    hours [7200] = [s] /\ hours [3600] = [d] /\ 0 < d /\
    sunshine_ratio [s] [d] = Ok [r] /\ r == 200 /\ ~ (0 <= r /\ r <= 100).
Proof.
  do 3 eexists. split; [vm_compute; reflexivity|].
  split; [vm_compute; reflexivity|].
  split; [reflexivity|].
  split; [vm_compute; reflexivity|].
  split; [reflexivity|].
  intros [_ H]. apply H. reflexivity.
Qed.




(** C7. For every aligned input the daily table has exactly the columns
    date, max and min temperature, sunrise, sunset, precipitation probability
    and precipitation sum (none of rain sum, showers sum, daylight hours,
    sunshine hours), and the custom analysis table has exactly the five
    columns date (as MM/DD text), precipitation sum, daylight hours, sunshine
    hours and label, without the sunshine ratio column. *)
Theorem table_column_sets strftime api lat lon name tz d :
  api lat lon = Ok (tz, d) ->
  aligned d ->
  exists w,
    get_weather_data strftime api lat lon name = Ok w /\
    columns (daily_table w) =
      [c_date; c_temp_max; c_temp_min; c_sunrise; c_sunset; c_precip_prob;
       c_precip_sum] /\
    (forall k, In k columns_to_drop_from_daily ->
               ~ In k (columns (daily_table w))) /\
    columns (custom_analysis_table w) =
      [c_date; c_precip_out; c_daylight; c_sunshine; c_forecast] /\
    ~ In c_ratio (columns (custom_analysis_table w)) /\
    get_item c_date (custom_analysis_table w) =
      Ok (StrCol (map (strftime tz fmt_md) (dates d))).
Proof.
  intros Hapi Hal. eexists. split; [eapply get_weather_data_ok; eassumption|].
  cbn [daily_table custom_analysis_table columns map fst].
  split; [reflexivity|]. split; [|split; [reflexivity|split; [|reflexivity]]].
  - intros k Hk Hin. cbn in Hk.
    repeat (destruct Hk as [<-|Hk]; [cbn in Hin; intuition discriminate|]).
    exact Hk.
  - cbn. intuition discriminate.
Qed.

Lemma table_column_sets_witness :
  exists w,
    get_weather_data Sample.clock
      (Sample.provider (Sample.one_day 36000 18000 40 0)) 35 139 "Tokyo" =
      Ok w /\
    columns (daily_table w) =
      [c_date; c_temp_max; c_temp_min; c_sunrise; c_sunset; c_precip_prob;
       c_precip_sum] /\
    (forall k, In k columns_to_drop_from_daily ->
               ~ In k (columns (daily_table w))) /\
    columns (custom_analysis_table w) =
      [c_date; c_precip_out; c_daylight; c_sunshine; c_forecast] /\
    ~ In c_ratio (columns (custom_analysis_table w)) /\
    get_item c_date (custom_analysis_table w) =
      Ok (StrCol (map (Sample.clock "Asia/Tokyo" fmt_md) (dates (Sample.one_day 36000 18000 40 0)))).
Proof.
  apply (@table_column_sets Sample.clock
           (Sample.provider (Sample.one_day 36000 18000 40 0))
           35 139 "Tokyo"%string "Asia/Tokyo"%string
           (Sample.one_day 36000 18000 40 0)).
  - reflexivity.
  - vm_compute. repeat split.
Defined.

(** C4, as amended.  When every latitude and longitude cell that is present
    is a text [float] accepts, the loader drops, one by one, the rows with an
    empty prefecture, capital, latitude or longitude cell (or a NaN
    coordinate) and loads all other rows in file order; a single present cell
    that [float] rejects makes the loader replace the whole table by the one
    fallback entry. *)
Theorem loader_row_level (float_of_string : string -> option pyfloat)
    (rows : list CsvRow) :
  float_of_string "nan"%string = Some NaN ->
  (Forall (parses float_of_string) rows ->
   load_prefecture_coords float_of_string (Parsed rows) =
   loaded_rows float_of_string rows /\
   forall e,
     In e (load_prefecture_coords float_of_string (Parsed rows)) <->
     exists r, In r rows /\ row_entry float_of_string r = Some e) /\
  (forall r,
      prefecture r = None \/ capital r = None \/
      lat_cell r = None \/ lon_cell r = None ->
      row_entry float_of_string r = None) /\
  (forall r, In r rows -> ~ parses float_of_string r ->
             load_prefecture_coords float_of_string (Parsed rows) =
             [error_entry]).
Proof.
  intros Hnan. split; [|split].
  - intros Hall. cbn [load_prefecture_coords].
    rewrite load_table_parsed by exact Hall.
    split; [reflexivity|]. intros e. apply loaded_rows_In.
  - intros r. now apply row_entry_missing.
  - intros r Hin Hn. cbn [load_prefecture_coords].
    now rewrite (load_table_unparsed _ Hin Hn).
Qed.

Lemma loader_row_level_witness :
  load_prefecture_coords decimal_float
    (Parsed [Sample.row_tokyo; Sample.row_no_capital]) =
  loaded_rows decimal_float [Sample.row_tokyo; Sample.row_no_capital] /\
  loaded_rows decimal_float [Sample.row_tokyo; Sample.row_no_capital] =
  [Sample.tokyo].
Proof.
  split; [|reflexivity].
  apply (proj1 (@loader_row_level decimal_float
                  [Sample.row_tokyo; Sample.row_no_capital] eq_refl)).
  repeat constructor; vm_compute; discriminate.
Defined.

(** C4 as stated fails: a row whose latitude is present but no number is
    not dropped on its own; the complete row before it is lost with it. *)
Lemma loader_bad_cell_loses_table :
  load_prefecture_coords decimal_float
    (Parsed [Sample.row_tokyo; Sample.row_bad_latitude]) = [error_entry] /\
  row_entry decimal_float Sample.row_tokyo = Some Sample.tokyo /\
  ~ In Sample.tokyo
      (load_prefecture_coords decimal_float
         (Parsed [Sample.row_tokyo; Sample.row_bad_latitude])).
Proof.
  split; [vm_compute; reflexivity|]. split; [vm_compute; reflexivity|].
  intros H. vm_compute in H. destruct H as [H|[]]. discriminate H.
Qed.

(** C5, as amended.  When the table is not empty once the loader has run,
    a POST whose key is absent or names no entry of the table resolves to the
    first entry of the table and is served exactly as the default request is:
    no error page, no undefined record.  When the table is still empty after
    loading, the request is answered with the 500 error page, as every
    request is. *)
Theorem unknown_key_falls_back float_of_string strftime weather_api csv
    (global : list Entry) (key : option string) :
  key_in key (map display_name (table_in_use float_of_string csv global)) =
    false ->
  (forall e rest,
      table_in_use float_of_string csv global = e :: rest ->
      selected_data e (e :: rest) (POST key) = e /\
      index float_of_string strftime weather_api csv global (POST key) =
      index float_of_string strftime weather_api csv global GET /\
      snd (index float_of_string strftime weather_api csv global (POST key))
        <> Error500 /\
      (forall w,
          get_weather_data strftime weather_api (latitude e) (longitude e)
            (display_name e) = Ok w ->
          snd (index float_of_string strftime weather_api csv global
                 (POST key)) =
          Rendered w (sorted_desc (e :: rest)) (display_name e))) /\
  (table_in_use float_of_string csv global = [] ->
   index float_of_string strftime weather_api csv global (POST key) =
   ([], Error500)).
Proof.
  intros Hkey. split.
  - intros e rest Htable. rewrite Htable in Hkey.
    assert (selected_data e (e :: rest) (POST key) = e) as Hsel.
    { apply selected_data_default. right. exact Hkey. }
    assert (selected_data e (e :: rest) GET = e) as Hget.
    { apply selected_data_default. now left. }
    rewrite !(index_populated _ _ _ _ _ _ Htable). cbv zeta.
    rewrite Hsel, Hget.
    split; [reflexivity|]. split; [reflexivity|]. split.
    + destruct (get_weather_data _ _ _ _ _); cbn; discriminate.
    + intros w ->. reflexivity.
  - intros Htable. now apply index_empty.
Qed.

Lemma unknown_key_falls_back_witness :
  selected_data Sample.tokyo [Sample.tokyo; Sample.sapporo]
    (POST (Some "大阪府（大阪市）"%string)) = Sample.tokyo.
Proof.
  apply (proj1 (@unknown_key_falls_back decimal_float Sample.clock
                  (Sample.provider (Sample.one_day 36000 18000 40 0)) Missing
                  [Sample.tokyo; Sample.sapporo]
                  (Some "大阪府（大阪市）"%string) eq_refl)
           Sample.tokyo [Sample.sapporo] eq_refl).
Defined.

(** C5 as stated fails: a readable file whose only row has no capital gives
    an empty table, and a POST with an unknown key then gets the error
    page. *)
Lemma unknown_key_on_empty_table :
  load_prefecture_coords decimal_float (Parsed [Sample.row_no_capital]) = [] /\
  key_in (Some "大阪府（大阪市）"%string)
    (map display_name
       (load_prefecture_coords decimal_float
          (Parsed [Sample.row_no_capital]))) = false /\
  index decimal_float Sample.clock
    (Sample.provider (Sample.one_day 36000 18000 40 0))
    (Parsed [Sample.row_no_capital]) [] (POST (Some "大阪府（大阪市）"%string)) =
  ([], Error500).
Proof.
  split; [vm_compute; reflexivity|]. split; vm_compute; reflexivity.
Qed.

(** C10. For a GET and for a POST with an unknown key the entry used is the
    first element of the table in load order; [index] leaves the table as it
    was, and the list sorted by latitude for display is another list, a
    north-to-south permutation of the table, so sorting never changes the
    default. *)
Theorem default_is_first_in_load_order float_of_string strftime weather_api
    csv (global : list Entry) (e : Entry) (rest : list Entry)
    (request : Request) :
  table_in_use float_of_string csv global = e :: rest ->
  request = GET \/ unknown_key (e :: rest) request ->
  selected_data e (e :: rest) request = e /\
  fst (index float_of_string strftime weather_api csv global request) =
  e :: rest /\
  table_in_use float_of_string csv
    (fst (index float_of_string strftime weather_api csv global request)) =
  e :: rest /\
  Permutation (e :: rest) (sorted_desc (e :: rest)) /\
  StronglySorted northward (sorted_desc (e :: rest)) /\
  (forall w prefecture_data selected_location,
      snd (index float_of_string strftime weather_api csv global request)
      = Rendered w prefecture_data selected_location ->
      prefecture_data = sorted_desc (e :: rest) /\
      selected_location = display_name e).
Proof.
  intros Htable Hreq.
  pose proof (@selected_data_default e rest request Hreq) as Hsel.
  rewrite (index_populated _ _ _ _ _ _ Htable). cbv zeta. rewrite Hsel.
  split; [reflexivity|]. split.
  { destruct (get_weather_data _ _ _ _ _); reflexivity. }
  split.
  { destruct (get_weather_data _ _ _ _ _); reflexivity. }
  split; [apply sorted_desc_perm|]. split; [apply sorted_desc_sorted|].
  intros w pd sl. destruct (get_weather_data _ _ _ _ _); cbn; intros H.
  - injection H as _ <- <-. split; reflexivity.
  - discriminate H.
Qed.

Lemma default_is_first_in_load_order_witness :
  selected_data Sample.tokyo [Sample.tokyo; Sample.sapporo] GET = Sample.tokyo /\
  sorted_desc [Sample.tokyo; Sample.sapporo] = [Sample.sapporo; Sample.tokyo].
Proof.
  split.
  - apply (proj1 (@default_is_first_in_load_order decimal_float Sample.clock
                    (Sample.provider (Sample.one_day 36000 18000 40 0)) Missing
                    [Sample.tokyo; Sample.sapporo] Sample.tokyo [Sample.sapporo]
                    GET eq_refl (or_introl eq_refl))).
  - reflexivity.
Defined.

(** ** Further facts on the pipeline *)

Module ForecastFacts.

Lemma hours_length secs : List.length (hours secs) = List.length secs.
Proof. unfold hours. now rewrite !length_map. Qed.

Lemma hours_nth secs i x :
  nth_error secs i = Some x ->
  nth_error (hours secs) i = Some (round1 (x / 3600)).
Proof.
  intros H. unfold hours. rewrite !nth_error_map, H. reflexivity.
Qed.

Lemma ratio_column_length d :
  aligned d -> List.length (ratio_column d) = List.length (dates d).
Proof.
  intros (_ & _ & _ & _ & H5 & H6 & _). unfold ratio_column.
  rewrite length_map, length_combine, !hours_length, H5, H6.
  apply Nat.min_id.
Qed.

Lemma nth_error_in_range {A B : Type} (l : list A) (r : list B) i a :
  List.length l = List.length r -> nth_error l i = Some a ->
  exists b, nth_error r i = Some b.
Proof.
  intros Hlen Ha.
  assert (i < List.length r)%nat as Hi.
  { rewrite <- Hlen. apply nth_error_Some. congruence. }
  apply nth_error_Some in Hi.
  destruct (nth_error r i) as [b|]; [now exists b|contradiction].
Qed.

(** The forecast cell of day [i], from the raw precipitation of that day. *)
Lemma forecast_cell d i p :
  aligned d ->
  nth_error (daily_precipitation_sum d) i = Some p ->
  exists r,
    nth_error (ratio_column d) i = Some r /\
    nth_error (forecast (map round1 (daily_precipitation_sum d))
                 (ratio_column d)) i =
    Some (label_text (classify_spec (round1 p) r)).
Proof.
  intros Hal Hp.
  assert (List.length (map round1 (daily_precipitation_sum d)) =
          List.length (ratio_column d)) as Hlen.
  { rewrite length_map, ratio_column_length by exact Hal.
    now destruct Hal as (_ & _ & _ & _ & _ & _ & _ & _ & _ & H10). }
  assert (nth_error (map round1 (daily_precipitation_sum d)) i =
          Some (round1 p)) as Hp'.
  { now rewrite nth_error_map, Hp. }
  destruct (@nth_error_in_range Q Q _ _ _ _ Hlen Hp') as (r & Hr).
  exists r. split; [exact Hr|]. now apply forecast_nth.
Qed.

Lemma forecast_column_length d :
  aligned d ->
  List.length (forecast (map round1 (daily_precipitation_sum d))
                 (ratio_column d)) = List.length (dates d).
Proof.
  intros Hal. pose proof (ratio_column_length Hal) as Hr.
  destruct Hal as (_ & _ & _ & _ & _ & _ & _ & _ & _ & H10).
  rewrite forecast_rows by (now rewrite length_map, Hr).
  rewrite length_map, length_combine, length_map, Hr, H10.
  apply Nat.min_id.
Qed.

Lemma aligned_dec d : {aligned d} + {~ aligned d}.
Proof.
  unfold aligned. cbv zeta.
  repeat match goal with
         | |- {?a = ?b /\ ?R} + {_} =>
             destruct (Nat.eq_dec a b);
             [|right; tauto];
             cut ({R} + {~ R}); [intros [?|?]; [left|right]; tauto|]
         end.
  match goal with
  | |- {?a = ?b} + {_} => destruct (Nat.eq_dec a b); [left|right]; tauto
  end.
Qed.

(** A series of another length than the date axis stops the frame
    constructor. *)
Lemma get_weather_data_misaligned strftime api lat lon name tz d :
  api lat lon = Ok (tz, d) ->
  ~ aligned d ->
  get_weather_data strftime api lat lon name = Raise ValueError.
Proof.
  intros Hapi Hn. unfold get_weather_data. rewrite Hapi.
  destruct d as [dts tmax tmin rain showers dl ss sr sst pp ps].
  cbn.
  match goal with
  | |- context [if ?b then _ else _] => destruct b eqn:E
  end; [|reflexivity].
  exfalso. apply Hn. unfold aligned. cbn.
  rewrite !andb_true_iff, !Nat.eqb_eq, !length_map in E.
  tauto.
Qed.

End ForecastFacts.

(** ** Further facts on the loader and the route *)

Module TableFacts.

Lemma remove_from_free s1 : forall rest,
  mark_free s1 = true ->
  remove_from degree_mark 0 (s1 ++ rest) =
  (s1 ++ remove_from degree_mark 0 rest)%string.
Proof.
  induction s1 as [|c s1 IH]; intros rest Hfree; [reflexivity|].
  cbn [mark_free] in Hfree. apply andb_true_iff in Hfree as [Hc Hfree].
  apply negb_true_iff, Ascii.eqb_neq in Hc.
  cbn [append remove_from].
  assert (String.prefix degree_mark (String c (s1 ++ rest)) = false) as ->.
  { unfold degree_mark. cbn [String.prefix].
    destruct (ascii_dec _ c) as [E|_]; [|reflexivity].
    exfalso. apply Hc. now rewrite <- E. }
  now rewrite IH.
Qed.

Lemma remove_from_mark rest :
  remove_from degree_mark 0 (degree_mark ++ rest) =
  remove_from degree_mark 0 rest.
Proof. destruct rest; reflexivity. Qed.

Lemma append_not_empty a c b : (a ++ String c b)%string <> EmptyString.
Proof. destruct a; discriminate. Qed.

Lemma entry_of_named row :
  region (entry_of row) <> EmptyString /\
  display_name (entry_of row) <> EmptyString.
Proof.
  unfold entry_of. cbn [region display_name]. split.
  - destruct (row_region row); discriminate.
  - destruct (String.eqb _ _); [discriminate|].
    destruct (String.eqb _ _); [discriminate|].
    apply append_not_empty.
Qed.

Section Rows.

Variable fos : string -> option pyfloat.

Lemma parses_dec r : {parses fos r} + {~ parses fos r}.
Proof.
  unfold parses.
  destruct (cell_float fos (lat_cell r)); [|right; intros [H _]; now apply H].
  destruct (cell_float fos (lon_cell r)); [|right; intros [_ H]; now apply H].
  left. split; discriminate.
Qed.

Lemma load_table_cases rows :
  (Forall (parses fos) rows /\
   load_table fos rows = Ok (loaded_rows fos rows)) \/
  (~ Forall (parses fos) rows /\ load_table fos rows = Raise ValueError).
Proof.
  destruct (Forall_Exists_dec (parses fos) parses_dec rows) as [H|H].
  - left. split; [exact H|now apply load_table_parsed].
  - right. apply Exists_exists in H as (r & Hin & Hr).
    split.
    + intros Hall. rewrite Forall_forall in Hall. exact (Hr (Hall r Hin)).
    + eapply load_table_unparsed; eassumption.
Qed.

Lemma loaded_rows_nil rows :
  loaded_rows fos rows = [] <->
  Forall (fun r => row_entry fos r = None) rows.
Proof.
  induction rows as [|r rows IH]; cbn [loaded_rows].
  - split; [constructor|reflexivity].
  - destruct (row_entry fos r) eqn:E.
    + split; [discriminate|]. intros H. inversion H. congruence.
    + rewrite IH. split; [now constructor|]. intros H. now inversion H.
Qed.

Lemma row_entry_is_entry_of r e :
  row_entry fos r = Some e -> exists row, e = entry_of row.
Proof.
  unfold row_entry.
  destruct (prefecture r), (capital r), (cell_float fos (lat_cell r))
    as [[|la]|], (cell_float fos (lon_cell r)) as [[|lo]|];
    try discriminate.
  intros [= <-]. eexists. reflexivity.
Qed.

End Rows.

(** Known keys *)
Lemma next_match_first k table d :
  existsb (String.eqb k) (map display_name table) = true ->
  exists before after,
    table = (before ++ next_match (Some k) table d :: after)%list /\
    Forall (fun e => display_name e <> k) before /\
    display_name (next_match (Some k) table d) = k.
Proof.
  induction table as [|item rest IH]; [discriminate|].
  cbn [map existsb next_match]. intros H.
  destruct (String.eqb (display_name item) k) eqn:E.
  - exists [], rest. split; [reflexivity|]. split; [constructor|].
    now apply String.eqb_eq.
  - rewrite String.eqb_sym, E in H. cbn [orb] in H.
    destruct (IH H) as (before & after & Ht & Hb & Hk).
    exists (item :: before), after. split; [cbn; now rewrite <- Ht|].
    split; [|exact Hk]. constructor; [|exact Hb].
    now apply String.eqb_neq.
Qed.

(** Stable sorting *)
Lemma insert_desc_filter q x l :
  filter (at_latitude q) (insert_desc x l) =
  filter (at_latitude q) (x :: l).
Proof.
  induction l as [|y l IH]; [reflexivity|].
  cbn [insert_desc].
  destruct (Qle_bool (latitude y) (latitude x)) eqn:E; [reflexivity|].
  cbn [filter] in *. rewrite IH.
  destruct (at_latitude q x) eqn:Ex; [|reflexivity].
  destruct (at_latitude q y) eqn:Ey; [|reflexivity].
  exfalso. unfold at_latitude in *.
  apply Qeq_bool_iff in Ex, Ey.
  assert (Qle_bool (latitude y) (latitude x) = true) as H.
  { apply Qle_bool_iff. rewrite Ex, Ey. apply Qle_refl. }
  congruence.
Qed.

End TableFacts.

Import ForecastFacts TableFacts.

(** ** Further properties of [get_weather_data] *)

(** X2. The rain rule reads the rounded precipitation: a day whose raw
    precipitation sum is at least 4.95 mm is labelled RAIN_WARNING. *)
Theorem heavy_rain_uses_rounded_precip strftime api lat lon name tz d i p :
  api lat lon = Ok (tz, d) ->
  aligned d ->
  nth_error (daily_precipitation_sum d) i = Some p ->
  495 # 100 <= p ->
  exists w col,
    get_weather_data strftime api lat lon name = Ok w /\
    get_item c_forecast (custom_analysis_table w) = Ok (StrCol col) /\
    nth_error col i = Some text_rain_warning.
Proof.
  intros Hapi Hal Hp Hge. do 2 eexists.
  split; [eapply get_weather_data_ok; eassumption|].
  split; [reflexivity|].
  destruct (forecast_cell _ Hal Hp) as (r & _ & ->).
  change text_rain_warning with (label_text RAIN_WARNING). do 2 f_equal.
  apply classify_spec_first_match. cbn [first_match]. unfold rule1, round1.
  assert (rint (99 # 2) <= rint (p * 10))%Z as Hz
    by (apply rint_mono; lra).
  change (rint (99 # 2)) with 50%Z in Hz.
  rewrite Zle_Qle in Hz. set (K := inject_Z (rint (p * 10))) in *.
  change (inject_Z 50) with 50 in Hz.
  assert (K / 10 == K * (1 # 10)) as -> by field. lra.
Qed.

Lemma heavy_rain_uses_rounded_precip_witness :
  exists w col,
    get_weather_data Sample.clock
      (Sample.provider (Sample.one_day 36000 18000 40 (496 # 100)))
      35 139 "Tokyo" = Ok w /\
    get_item c_forecast (custom_analysis_table w) = Ok (StrCol col) /\
    nth_error col 0 = Some text_rain_warning.
Proof.
  apply (@heavy_rain_uses_rounded_precip Sample.clock
           (Sample.provider (Sample.one_day 36000 18000 40 (496 # 100)))
           35 139 "Tokyo"%string "Asia/Tokyo"%string
           (Sample.one_day 36000 18000 40 (496 # 100)) 0%nat (496 # 100)).
  - reflexivity.
  - vm_compute. repeat split.
  - reflexivity.
  - unfold Qle; simpl; lia.
Defined.

(** X3. A raw precipitation sum within 0.05 mm of zero counts as no
    precipitation: the day never gets a rain label, it is labelled CLOUDY,
    PARTLY_CLOUDY or CLEAR. *)
Theorem trace_precip_counts_as_none strftime api lat lon name tz d i p :
  api lat lon = Ok (tz, d) ->
  aligned d ->
  nth_error (daily_precipitation_sum d) i = Some p ->
  - (1 # 20) <= p -> p <= 1 # 20 ->
  exists w col t,
    get_weather_data strftime api lat lon name = Ok w /\
    get_item c_forecast (custom_analysis_table w) = Ok (StrCol col) /\
    nth_error col i = Some t /\
    In t [text_cloudy; text_partly_cloudy; text_clear].
Proof.
  intros Hapi Hal Hp Hlo Hhi.
  destruct (forecast_cell _ Hal Hp) as (r & Hr & Hcell).
  do 3 eexists.
  split; [eapply get_weather_data_ok; eassumption|].
  split; [reflexivity|]. split; [exact Hcell|].
  assert (round1 p == 0) as H0.
  { unfold round1.
    assert (rint (p * 10) = 0%Z) as ->.
    { assert (rint (- (1 # 2)) <= rint (p * 10))%Z as Hl
        by (apply rint_mono; lra).
      assert (rint (p * 10) <= rint (1 # 2))%Z as Hu
        by (apply rint_mono; lra).
      change (rint (- (1 # 2))) with 0%Z in Hl.
      change (rint (1 # 2)) with 0%Z in Hu. lia. }
    reflexivity. }
  destruct (classify_spec (round1 p) r) eqn:E; cbn [label_text In]; auto;
    exfalso; apply classify_spec_first_match in E; cbn [first_match] in E;
    unfold rule1, rule2 in E.
  - lra.
  - destruct E as (_ & _ & Hpos & _). lra.
Qed.

Lemma trace_precip_counts_as_none_witness :
  exists w col t,
    get_weather_data Sample.clock
      (Sample.provider (Sample.one_day 36000 18000 40 (4 # 100)))
      35 139 "Tokyo" = Ok w /\
    get_item c_forecast (custom_analysis_table w) = Ok (StrCol col) /\
    nth_error col 0 = Some t /\
    In t [text_cloudy; text_partly_cloudy; text_clear].
Proof.
  apply (@trace_precip_counts_as_none Sample.clock
           (Sample.provider (Sample.one_day 36000 18000 40 (4 # 100)))
           35 139 "Tokyo"%string "Asia/Tokyo"%string
           (Sample.one_day 36000 18000 40 (4 # 100)) 0%nat (4 # 100)).
  - reflexivity.
  - vm_compute. repeat split.
  - reflexivity.
  - unfold Qle; simpl; lia.
  - unfold Qle; simpl; lia.
Defined.

(** X4. When the provider answers, [get_weather_data] returns its tables
    exactly when the ten series and the date axis have one length; a series
    of another length is a [ValueError], never a truncated table. *)
Theorem misaligned_series_raise strftime api lat lon name tz d :
  api lat lon = Ok (tz, d) ->
  (aligned d <-> exists w, get_weather_data strftime api lat lon name = Ok w) /\
  (~ aligned d ->
   get_weather_data strftime api lat lon name = Raise ValueError).
Proof.
  intros Hapi. split; [split|].
  - intros Hal. eexists. eapply get_weather_data_ok; eassumption.
  - intros (w & Hw). destruct (aligned_dec d) as [H|H]; [exact H|].
    rewrite (get_weather_data_misaligned strftime _ _ _ name Hapi H) in Hw.
    discriminate Hw.
  - intros H. eapply get_weather_data_misaligned; eassumption.
Qed.

Lemma misaligned_series_raise_witness :
  get_weather_data Sample.clock
    (fun _ _ => Ok ("Asia/Tokyo"%string,
                    {| dates := [0%Z; 86400%Z];
                       daily_temperature_2m_max := [20];
                       daily_temperature_2m_min := [10; 11];
                       daily_rain_sum := [0; 0];
                       daily_showers_sum := [0; 0];
                       daily_daylight_duration := [36000; 36000];
                       daily_sunshine_duration := [18000; 18000];
                       daily_sunrise := [0%Z; 0%Z];
                       daily_sunset := [0%Z; 0%Z];
                       daily_precipitation_probability_max := [10; 10];
                       daily_precipitation_sum := [0; 0] |}))
    35 139 "Tokyo" = Raise ValueError.
Proof.
  refine (proj2 (@misaligned_series_raise Sample.clock _ 35 139
                   "Tokyo"%string "Asia/Tokyo"%string _ eq_refl) _).
  intros H. destruct H as [H _]. discriminate H.
Defined.

(** X5. The chart payload and the two tables are index-aligned views of one
    forecast: all have one row per date, the chart's labels are the date
    cells of the custom table, and its three series are the cells of the
    temperature and precipitation columns of the tables. *)
Theorem views_share_rows strftime api lat lon name tz d :
  api lat lon = Ok (tz, d) ->
  aligned d ->
  exists w,
    get_weather_data strftime api lat lon name = Ok w /\
    Forall (fun kc => col_len (snd kc) = List.length (dates d))
      (daily_table w) /\
    Forall (fun kc => col_len (snd kc) = List.length (dates d))
      (custom_analysis_table w) /\
    get_item c_date (custom_analysis_table w) =
      Ok (StrCol (labels (chart_data w))) /\
    get_item c_temp_max (daily_table w) =
      Ok (FloatCol (t_max (chart_data w))) /\
    get_item c_temp_min (daily_table w) =
      Ok (FloatCol (t_min (chart_data w))) /\
    get_item c_precip_sum (daily_table w) =
      Ok (FloatCol (precipitation_sum (chart_data w))) /\
    get_item c_precip_out (custom_analysis_table w) =
      Ok (FloatCol (precipitation_sum (chart_data w))).
Proof.
  intros Hapi Hal. eexists.
  split; [eapply get_weather_data_ok; eassumption|].
  cbn [daily_table custom_analysis_table chart_data labels t_max t_min
       precipitation_sum].
  pose proof (forecast_column_length Hal) as Hf.
  destruct Hal as (H1 & H2 & H3 & H4 & H5 & H6 & H7 & H8 & H9 & H10).
  split.
  { repeat (apply Forall_cons;
              [cbn [snd col_len]; rewrite ?length_map;
               first [assumption | reflexivity]|]).
    apply Forall_nil. }
  split.
  { repeat (apply Forall_cons;
              [cbn [snd col_len]; rewrite ?hours_length, ?length_map;
               first [assumption | reflexivity]|]).
    apply Forall_nil. }
  repeat split.
Qed.

Lemma views_share_rows_witness :
  exists w,
    get_weather_data Sample.clock
      (Sample.provider (Sample.one_day 36000 18000 40 0)) 35 139 "Tokyo" =
      Ok w /\
    Forall (fun kc => col_len (snd kc) = 1%nat) (daily_table w) /\
    Forall (fun kc => col_len (snd kc) = 1%nat) (custom_analysis_table w) /\
    get_item c_date (custom_analysis_table w) =
      Ok (StrCol (labels (chart_data w))) /\
    get_item c_temp_max (daily_table w) =
      Ok (FloatCol (t_max (chart_data w))) /\
    get_item c_temp_min (daily_table w) =
      Ok (FloatCol (t_min (chart_data w))) /\
    get_item c_precip_sum (daily_table w) =
      Ok (FloatCol (precipitation_sum (chart_data w))) /\
    get_item c_precip_out (custom_analysis_table w) =
      Ok (FloatCol (precipitation_sum (chart_data w))).
Proof.
  apply (@views_share_rows Sample.clock
           (Sample.provider (Sample.one_day 36000 18000 40 0))
           35 139 "Tokyo"%string "Asia/Tokyo"%string
           (Sample.one_day 36000 18000 40 0)).
  - reflexivity.
  - vm_compute. repeat split.
Defined.

(** X6. Rounding the hours before dividing cannot push the ratio out of
    range: for a day whose raw sunshine duration lies between 0 and its raw
    daylight duration, the sunshine ratio computed from the rounded hour
    columns lies in [0, 100]. *)
Theorem ratio_in_range_for_real_days (d : Daily) i s dl :
  nth_error (daily_sunshine_duration d) i = Some s ->
  nth_error (daily_daylight_duration d) i = Some dl ->
  0 <= s -> s <= dl ->
  exists ratio r,
    sunshine_ratio (hours (daily_sunshine_duration d))
                   (hours (daily_daylight_duration d)) = Ok ratio /\
    nth_error ratio i = Some r /\ 0 <= r /\ r <= 100.
Proof.
  intros Hs Hd H0 Hle. do 2 eexists.
  split; [apply sunshine_ratio_total|]. split.
  { rewrite nth_error_map.
    erewrite nth_error_combine by (apply hours_nth; eassumption).
    reflexivity. }
  cbn [fst snd].
  set (S := round1 (s / 3600)). set (D := round1 (dl / 3600)).
  assert (0 <= S) as HS.
  { assert (round1 0 <= S) as H.
    { apply round1_mono.
      assert (s / 3600 == s * (1 # 3600)) as -> by field. lra. }
    assert (round1 0 == 0) as Hz by reflexivity. lra. }
  assert (S <= D) as HSD.
  { apply round1_mono.
    assert (s / 3600 == s * (1 # 3600)) as -> by field.
    assert (dl / 3600 == dl * (1 # 3600)) as -> by field. lra. }
  destruct (Qlt_le_dec 0 D) as [Hpos|Hneg].
  - rewrite (ratio_pct_light S Hpos). split.
    + apply Qle_shift_div_l; [exact Hpos|lra].
    + apply Qle_shift_div_r; [exact Hpos|lra].
  - rewrite (ratio_pct_dark S Hneg). split; lra.
Qed.

Lemma ratio_in_range_for_real_days_witness :
  exists ratio r,
    sunshine_ratio
      (hours (daily_sunshine_duration (Sample.one_day 36000 18000 40 0)))
      (hours (daily_daylight_duration (Sample.one_day 36000 18000 40 0))) =
      Ok ratio /\
    nth_error ratio 0 = Some r /\ 0 <= r /\ r <= 100.
Proof.
  apply (@ratio_in_range_for_real_days (Sample.one_day 36000 18000 40 0)
           0%nat 18000 36000).
  - reflexivity.
  - reflexivity.
  - unfold Qle; simpl; lia.
  - unfold Qle; simpl; lia.
Defined.

(** ** Further properties of [load_prefecture_coords] and [index] *)

(** X7. Stripping the degree mark: a coordinate text without the mark is left
    as it is, and the same text with the mark appended (or anywhere inside)
    is read as the same number. *)
Theorem degree_mark_is_stripped (float_of_string : string -> option pyfloat)
    (s1 s2 : string) :
  mark_free s1 = true -> mark_free s2 = true ->
  str_remove degree_mark (s1 ++ s2) = (s1 ++ s2)%string /\
  str_remove degree_mark (s1 ++ degree_mark ++ s2) = (s1 ++ s2)%string /\
  to_num float_of_string [Some (s1 ++ degree_mark ++ s2)%string] =
  to_num float_of_string [Some (s1 ++ s2)%string].
Proof.
  intros H1 H2.
  assert (str_remove degree_mark s2 = s2) as E2.
  { unfold str_remove. pose proof (remove_from_free s2 EmptyString H2) as H.
    cbn [remove_from] in H.
    assert (forall s, (s ++ EmptyString)%string = s) as Hnil
      by (induction s as [|c s IH]; cbn; congruence).
    now rewrite !Hnil in H. }
  assert (str_remove degree_mark (s1 ++ s2) = (s1 ++ s2)%string) as E12.
  { unfold str_remove in *. rewrite remove_from_free by exact H1.
    now rewrite E2. }
  assert (str_remove degree_mark (s1 ++ degree_mark ++ s2) =
          (s1 ++ s2)%string) as E1m2.
  { unfold str_remove in *. rewrite remove_from_free by exact H1.
    now rewrite remove_from_mark, E2. }
  split; [exact E12|]. split; [exact E1m2|].
  unfold to_num. cbn [mapM astype_str]. now rewrite E12, E1m2.
Qed.

Lemma degree_mark_is_stripped_witness :
  str_remove degree_mark "35.689∘" = "35.689"%string.
Proof.
  exact (proj1 (proj2 (@degree_mark_is_stripped decimal_float
                         "35.689"%string EmptyString eq_refl eq_refl))).
Defined.

(** X8. The fallback entry covers a missing file, an unreadable file and an
    unparseable coordinate, but not a readable file without a complete row:
    the loader returns an empty table exactly for a parsed file in which
    every coordinate cell parses and no row is complete. *)
Theorem empty_table_iff_no_complete_row
    (float_of_string : string -> option pyfloat) (src : CsvSource) :
  load_prefecture_coords float_of_string src = [] <->
  exists rows,
    src = Parsed rows /\
    Forall (parses float_of_string) rows /\
    Forall (fun r => row_entry float_of_string r = None) rows.
Proof.
  split.
  - destruct src as [| e | rows]; cbn [load_prefecture_coords];
      try discriminate.
    destruct (load_table_cases float_of_string rows) as [[Hall ->]|[_ ->]];
      [|discriminate].
    intros H. exists rows. split; [reflexivity|]. split; [exact Hall|].
    now apply loaded_rows_nil.
  - intros (rows & -> & Hall & Hnone). cbn [load_prefecture_coords].
    rewrite load_table_parsed by exact Hall. now apply loaded_rows_nil.
Qed.

Lemma empty_table_iff_no_complete_row_witness :
  load_prefecture_coords decimal_float (Parsed [Sample.row_no_capital]) = [].
Proof.
  apply (proj2 (@empty_table_iff_no_complete_row decimal_float
                  (Parsed [Sample.row_no_capital]))).
  exists [Sample.row_no_capital]. split; [reflexivity|].
  split; repeat constructor; vm_compute; discriminate.
Defined.

(** X9. Every entry the loader produces, from a row or as a fallback, has a
    non-empty region and a non-empty display name. *)
Theorem loaded_entries_are_named
    (float_of_string : string -> option pyfloat) (src : CsvSource) :
  Forall (fun e => region e <> EmptyString /\ display_name e <> EmptyString)
    (load_prefecture_coords float_of_string src).
Proof.
  destruct src as [| e | rows]; cbn [load_prefecture_coords app].
  - constructor; [split; discriminate|constructor].
  - constructor; [split; discriminate|constructor].
  - destruct (load_table_cases float_of_string rows) as [[Hall ->]|[_ ->]].
    + apply Forall_forall. intros e He.
      apply loaded_rows_In in He as (r & _ & Hr).
      apply row_entry_is_entry_of in Hr as (row & ->).
      apply entry_of_named.
    + constructor; [split; discriminate|constructor].
Qed.

(** X10. [index] answers with the 500 page exactly when the table is still
    empty after the loader ran, and then leaves the global empty, so the next
    request runs the loader again. *)
Theorem error_page_iff_empty_table float_of_string strftime weather_api csv
    (global : list Entry) (request : Request) :
  (snd (index float_of_string strftime weather_api csv global request) =
   Error500 <->
   table_in_use float_of_string csv global = []) /\
  (table_in_use float_of_string csv global = [] ->
   fst (index float_of_string strftime weather_api csv global request) = []).
Proof.
  destruct (table_in_use float_of_string csv global) as [|e rest] eqn:E.
  - rewrite (@index_empty float_of_string strftime weather_api csv global
               request E).
    cbn. tauto.
  - rewrite (@index_populated float_of_string strftime weather_api csv global
               e rest request E).
    cbv zeta.
    destruct (get_weather_data _ _ _ _ _); cbn; split;
      try (split; discriminate); discriminate.
Qed.

Lemma error_page_iff_empty_table_witness :
  snd (index decimal_float Sample.clock
         (Sample.provider (Sample.one_day 36000 18000 40 0)) (Parsed [])
         [] GET) = Error500.
Proof.
  apply (proj2 (proj1 (@error_page_iff_empty_table decimal_float Sample.clock
                         (Sample.provider (Sample.one_day 36000 18000 40 0))
                         (Parsed []) [] GET))).
  reflexivity.
Defined.

(** X11. Serving a request never changes how later requests are served. *)
Theorem index_is_stateless float_of_string strftime weather_api csv
    (global : list Entry) (first next : Request) :
  index float_of_string strftime weather_api csv
    (fst (index float_of_string strftime weather_api csv global first)) next =
  index float_of_string strftime weather_api csv global next.
Proof.
  destruct (table_in_use float_of_string csv global) as [|e rest] eqn:E.
  - rewrite (@index_empty float_of_string strftime weather_api csv global
               first E).
    cbn [fst].
    destruct global as [|g0 gs]; [reflexivity|discriminate E].
  - assert (fst (index float_of_string strftime weather_api csv global first)
            = e :: rest) as ->.
    { rewrite (@index_populated float_of_string strftime weather_api csv
                 global e rest first E).
      cbv zeta. destruct (get_weather_data _ _ _ _ _); reflexivity. }
    rewrite (@index_populated float_of_string strftime weather_api csv
               global e rest next E).
    now rewrite (@index_populated float_of_string strftime weather_api csv
                   (e :: rest) e rest next eq_refl).
Qed.

(** X12. A POST whose key names an entry selects the first entry of the
    table that bears this name: the selected entry has the requested name, it
    is in the table, and no entry before it has that name, so an entry
    shadowed by an earlier namesake is never selected. *)
Theorem known_key_selects_first_bearer (default_data : Entry)
    (table : list Entry) (k : string) :
  key_in (Some k) (map display_name table) = true ->
  exists before after,
    table =
      (before ++ selected_data default_data table (POST (Some k)) :: after)%list /\
    Forall (fun e => display_name e <> k) before /\
    display_name (selected_data default_data table (POST (Some k))) = k.
Proof.
  intros Hk. unfold selected_data. rewrite Hk. cbn [negb].
  apply next_match_first. exact Hk.
Qed.

Lemma known_key_selects_first_bearer_witness :
  exists before after,
    [Sample.tokyo; Sample.sapporo] =
      (before ++
       selected_data Sample.tokyo [Sample.tokyo; Sample.sapporo]
         (POST (Some (display_name Sample.sapporo))) :: after)%list /\
    Forall (fun e => display_name e <> display_name Sample.sapporo) before /\
    display_name
      (selected_data Sample.tokyo [Sample.tokyo; Sample.sapporo]
         (POST (Some (display_name Sample.sapporo)))) =
    display_name Sample.sapporo.
Proof.
  apply (@known_key_selects_first_bearer Sample.tokyo
           [Sample.tokyo; Sample.sapporo] (display_name Sample.sapporo)).
  reflexivity.
Defined.

(** X13. The display sort is stable: entries of one latitude appear in the
    sorted list in the order they have in the table. *)
Theorem display_sort_is_stable (table : list Entry) (q : Q) :
  filter (at_latitude q) (sorted_desc table) = filter (at_latitude q) table.
Proof.
  induction table as [|x l IH]; [reflexivity|].
  cbn [sorted_desc fold_right]. fold (sorted_desc l).
  rewrite insert_desc_filter. cbn [filter]. now rewrite IH.
Qed.

(** X14. What a request on a populated table comes to: a failed fetch and
    misaligned series both end in the failure of the whole request, with the
    table untouched and nothing rendered; otherwise the page is rendered for
    the selected entry, under its display name and the provider's zone. *)
Theorem request_outcomes float_of_string strftime weather_api csv
    (global : list Entry) (e : Entry) (rest : list Entry) (request : Request) :
  table_in_use float_of_string csv global = e :: rest ->
  let selected := selected_data e (e :: rest) request in
  let served := index float_of_string strftime weather_api csv global request in
  (forall err,
      weather_api (latitude selected) (longitude selected) = Raise err ->
      served = (e :: rest, Failed err)) /\
  (forall tz d,
      weather_api (latitude selected) (longitude selected) = Ok (tz, d) ->
      ~ aligned d ->
      served = (e :: rest, Failed ValueError)) /\
  (forall tz d,
      weather_api (latitude selected) (longitude selected) = Ok (tz, d) ->
      aligned d ->
      exists w,
        served = (e :: rest,
                  Rendered w (sorted_desc (e :: rest)) (display_name selected))
        /\ location_name w = display_name selected
        /\ timezone_info w = tz).
Proof.
  intros Htable selected served. subst served.
  rewrite (@index_populated float_of_string strftime weather_api csv global
             e rest request Htable).
  cbv zeta. fold selected.
  split; [|split].
  - intros err Herr. unfold get_weather_data. now rewrite Herr.
  - intros tz d Hapi Hn.
    now rewrite (get_weather_data_misaligned strftime _ _ _
                   (display_name selected) Hapi Hn).
  - intros tz d Hapi Hal.
    rewrite (get_weather_data_ok strftime _ _ _ (display_name selected)
               Hapi Hal).
    eexists. split; [reflexivity|]. split; reflexivity.
Qed.

Lemma request_outcomes_witness :
  index decimal_float Sample.clock (fun _ _ => Raise ValueError) Missing
    [Sample.tokyo; Sample.sapporo] GET =
  ([Sample.tokyo; Sample.sapporo], Failed ValueError).
Proof.
  exact (proj1 (@request_outcomes decimal_float Sample.clock
                  (fun _ _ => Raise ValueError) Missing
                  [Sample.tokyo; Sample.sapporo] Sample.tokyo [Sample.sapporo]
                  GET eq_refl) ValueError eq_refl).
Defined.

(** X16. Rounding keeps the order of the temperatures: on a day whose raw
    minimum is not above its raw maximum, the minimum shown is not above the
    maximum shown. *)
Theorem shown_min_not_above_max strftime api lat lon name tz d i lo hi :
  api lat lon = Ok (tz, d) ->
  aligned d ->
  nth_error (daily_temperature_2m_min d) i = Some lo ->
  nth_error (daily_temperature_2m_max d) i = Some hi ->
  lo <= hi ->
  exists w los his slo shi,
    get_weather_data strftime api lat lon name = Ok w /\
    get_item c_temp_min (daily_table w) = Ok (FloatCol los) /\
    get_item c_temp_max (daily_table w) = Ok (FloatCol his) /\
    nth_error los i = Some slo /\ nth_error his i = Some shi /\
    slo <= shi.
Proof.
  intros Hapi Hal Hlo Hhi Hle. do 3 eexists. exists (round1 lo), (round1 hi).
  split; [eapply get_weather_data_ok; eassumption|].
  do 2 (split; [reflexivity|]).
  split; [now rewrite nth_error_map, Hlo|].
  split; [now rewrite nth_error_map, Hhi|].
  now apply round1_mono.
Qed.

Lemma shown_min_not_above_max_witness :
  exists w los his slo shi,
    get_weather_data Sample.clock
      (Sample.provider (Sample.one_day 36000 18000 40 0)) 35 139 "Tokyo" =
      Ok w /\
    get_item c_temp_min (daily_table w) = Ok (FloatCol los) /\
    get_item c_temp_max (daily_table w) = Ok (FloatCol his) /\
    nth_error los 0 = Some slo /\ nth_error his 0 = Some shi /\
    slo <= shi.
Proof.
  apply (@shown_min_not_above_max Sample.clock
           (Sample.provider (Sample.one_day 36000 18000 40 0))
           35 139 "Tokyo"%string "Asia/Tokyo"%string
           (Sample.one_day 36000 18000 40 0) 0%nat 4 (21 # 2)).
  - reflexivity.
  - vm_compute. repeat split.
  - reflexivity.
  - reflexivity.
  - unfold Qle; simpl; lia.
Defined.
